(** * Budget-Planner: the ledger and budget reconciliation engine

    A shallow embedding of [FinanceProvider] (the finance context of the
    application): the transaction store, the per-category budgets, the
    round-up accumulator and the two advisory heuristics, followed by the
    properties of the specification that concern them.

    Modelling conventions.
    - A JavaScript [number] is an exact rational ([Q]).  Sums, differences
      and comparisons are the exact ones, so an equality of amounts is
      stated with [==] ([Qeq]); rounding error, overflow and the NaN and
      infinite values are outside the model, except in [checkRegretRisk],
      the one place that divides, where the result type [jsnum] keeps the
      outcome of a division by zero.
    - The React state of the provider (four [useState] cells) is a record
      [FinanceState]; every mutator is a function from the state before
      the call to the state after its updates are committed.  The updater
      functions passed to [setTransactions], [setBudgets] and
      [setRoundUpSavings] are applied in the order in which the source
      queues them.
    - [Date.now()] and [Math.random()] are inputs of the functions that
      read them. *)

From Stdlib Require Import QArith Qround Lqa ZArith Lia.
From Stdlib Require Import String List Bool DecimalString DecimalZ.
Import ListNotations.

Open Scope Q_scope.

(** ** Numbers *)

(** [a > b] and [a >= b] on numbers. *)
Definition Qgtb (a b : Q) : bool := negb (Qle_bool a b).
Definition Qgeb (a b : Q) : bool := Qle_bool b a.

(** [Math.max], [Math.min], [Math.ceil] and [Math.floor] on finite numbers. *)
Definition Math_max (a b : Q) : Q := if Qle_bool a b then b else a.
Definition Math_min (a b : Q) : Q := if Qle_bool a b then a else b.
Definition Math_ceil (a : Q) : Q := inject_Z (Qceiling a).
Definition Math_floor (a : Q) : Z := Qfloor a.

(** The value of an expression that may divide by zero. *)
Inductive jsnum : Type :=
| Num (q : Q)
| PosInf
| NegInf
| NaN.

(** [n / d] for finite [n] and [d]. *)
Definition jsdiv (n d : Q) : jsnum :=
  if Qeq_bool d 0 then
    if Qgtb n 0 then PosInf
    else if Qgtb 0 n then NegInf
    else NaN
  else Num (n / d).

(** [Math.min(x, 1)] and [x > c] where [x] may be infinite or NaN. *)
Definition jsnum_min (x : jsnum) (c : Q) : jsnum :=
  match x with
  | Num q => Num (Math_min q c)
  | PosInf => Num c
  | NegInf => NegInf
  | NaN => NaN
  end.

Definition jsnum_gtb (x : jsnum) (c : Q) : bool :=
  match x with
  | Num q => Qgtb q c
  | PosInf => true
  | NegInf => false
  | NaN => false
  end.

(** [x] is a number of the interval [[0, 1]]. *)
Definition in_unit_interval (x : jsnum) : Prop :=
  match x with
  | Num q => 0 <= q /\ q <= 1
  | _ => False
  end.

(** [n.toString()] for an integer [n]. *)
Definition toString (n : Z) : string := NilZero.string_of_int (Z.to_int n).

(** ** Data model *)

Inductive TransactionType : Type := income | expense.

Definition TransactionType_eqb (a b : TransactionType) : bool :=
  match a, b with
  | income, income => true
  | expense, expense => true
  | _, _ => false
  end.

(** A [Date] is built either from calendar fields ([new Date(y, m, d)]) or
    from the clock ([new Date()]). *)
Inductive Date : Type :=
| DateOf (year monthIndex day : Z)
| DateAt (millis : Z).

Module Transaction.
Record t : Type := mk {
  id : string;
  amount : Q;
  category : string;
  description : string;
  date : Date;
  type : TransactionType
}.
End Transaction.

(** [Omit<Transaction, 'id'>] *)
Module TransactionInput.
Record t : Type := mk {
  amount : Q;
  category : string;
  description : string;
  date : Date;
  type : TransactionType
}.
End TransactionInput.

Module SavingsGoal.
Record t : Type := mk {
  id : string;
  name : string;
  target : Q;
  current : Q;
  deadline : Date
}.
End SavingsGoal.

(** [Omit<SavingsGoal, 'id'>] *)
Module GoalInput.
Record t : Type := mk {
  name : string;
  target : Q;
  current : Q;
  deadline : Date
}.
End GoalInput.

Module Budget.
Record t : Type := mk {
  category : string;
  limit : Q;
  spent : Q
}.
End Budget.

(** [{ ...transaction, id }] *)
Definition withId (i : string) (t : TransactionInput.t) : Transaction.t :=
  Transaction.mk i (TransactionInput.amount t) (TransactionInput.category t)
    (TransactionInput.description t) (TransactionInput.date t)
    (TransactionInput.type t).

Definition goalWithId (i : string) (g : GoalInput.t) : SavingsGoal.t :=
  SavingsGoal.mk i (GoalInput.name g) (GoalInput.target g)
    (GoalInput.current g) (GoalInput.deadline g).

(** The four state cells of [FinanceProvider]. *)
Record FinanceState : Type := mkState {
  transactions : list Transaction.t;
  savings : list SavingsGoal.t;
  budgets : list Budget.t;
  roundUpSavings : Q
}.

(** The values the cells are created with. *)
Definition initialState : FinanceState :=
  {| transactions :=
       [ Transaction.mk "1" 2500 "Food" "Grocery shopping"
           (DateOf 2024 0 15) expense;
         Transaction.mk "2" 5000 "Salary" "Monthly salary"
           (DateOf 2024 0 1) income;
         Transaction.mk "3" 800 "Transportation" "Uber rides"
           (DateOf 2024 0 10) expense ];
     savings :=
       [ SavingsGoal.mk "1" "Emergency Fund" 50000 15000 (DateOf 2024 11 31);
         SavingsGoal.mk "2" "Vacation" 25000 8500 (DateOf 2024 5 30) ];
     budgets :=
       [ Budget.mk "Food" 5000 2500;
         Budget.mk "Transportation" 2000 800;
         Budget.mk "Entertainment" 3000 1200;
         Budget.mk "Shopping" 4000 3500 ];
     roundUpSavings := 450 |}.

(** ** Budget patches

    The three updaters the mutators pass to [setBudgets]. *)

(** [budget.category === c ? { ...budget, spent: budget.spent + a } : budget] *)
Definition addSpent (c : string) (a : Q) (b : Budget.t) : Budget.t :=
  if String.eqb (Budget.category b) c
  then Budget.mk (Budget.category b) (Budget.limit b) (Budget.spent b + a)
  else b.

(** [budget.category === c
      ? { ...budget, spent: Math.max(0, budget.spent - a) } : budget] *)
Definition removeSpent (c : string) (a : Q) (b : Budget.t) : Budget.t :=
  if String.eqb (Budget.category b) c
  then Budget.mk (Budget.category b) (Budget.limit b)
         (Math_max 0 (Budget.spent b - a))
  else b.

(** [budget.category === c ? { ...budget, limit } : budget] *)
Definition setLimit (c : string) (l : Q) (b : Budget.t) : Budget.t :=
  if String.eqb (Budget.category b) c
  then Budget.mk (Budget.category b) l (Budget.spent b)
  else b.

(** ** Mutators *)

(** [transactions.find(t => t.id === id)] *)
Definition findTransaction (i : string) (ts : list Transaction.t)
  : option Transaction.t :=
  find (fun t => String.eqb (Transaction.id t) i) ts.

(** [addTransaction]; [now] is the value [Date.now()] returns in the call. *)
Definition addTransaction (now : Z) (transaction : TransactionInput.t)
    (s : FinanceState) : FinanceState :=
  let newTransaction := withId (toString now) transaction in
  let transactions' := newTransaction :: transactions s in
  let roundUpSavings' :=
    match TransactionInput.type transaction with
    | expense =>
        let roundUp :=
          Math_ceil (TransactionInput.amount transaction)
          - TransactionInput.amount transaction in
        if Qgtb roundUp 0 then roundUpSavings s + roundUp
        else roundUpSavings s
    | income => roundUpSavings s
    end in
  let budgets' :=
    match TransactionInput.type transaction with
    | expense =>
        map (addSpent (TransactionInput.category transaction)
               (TransactionInput.amount transaction)) (budgets s)
    | income => budgets s
    end in
  {| transactions := transactions';
     savings := savings s;
     budgets := budgets';
     roundUpSavings := roundUpSavings' |}.

(** [addSavingsGoal] *)
Definition addSavingsGoal (now : Z) (goal : GoalInput.t)
    (s : FinanceState) : FinanceState :=
  let newGoal := goalWithId (toString now) goal in
  {| transactions := transactions s;
     savings := savings s ++ [newGoal];
     budgets := budgets s;
     roundUpSavings := roundUpSavings s |}.

(** [updateBudget] *)
Definition updateBudget (category : string) (limit : Q)
    (s : FinanceState) : FinanceState :=
  {| transactions := transactions s;
     savings := savings s;
     budgets := map (setLimit category limit) (budgets s);
     roundUpSavings := roundUpSavings s |}.

(** [editTransaction] *)
Definition editTransaction (id : string) (transaction : TransactionInput.t)
    (s : FinanceState) : FinanceState :=
  match findTransaction id (transactions s) with
  | None => s
  | Some oldTransaction =>
      let transactions' :=
        map (fun t => if String.eqb (Transaction.id t) id
                      then withId id transaction else t)
            (transactions s) in
      let budgets1 :=
        match Transaction.type oldTransaction with
        | expense =>
            map (removeSpent (Transaction.category oldTransaction)
                   (Transaction.amount oldTransaction)) (budgets s)
        | income => budgets s
        end in
      let budgets2 :=
        match TransactionInput.type transaction with
        | expense =>
            map (addSpent (TransactionInput.category transaction)
                   (TransactionInput.amount transaction)) budgets1
        | income => budgets1
        end in
      {| transactions := transactions';
         savings := savings s;
         budgets := budgets2;
         roundUpSavings := roundUpSavings s |}
  end.

(** [deleteTransaction] *)
Definition deleteTransaction (id : string) (s : FinanceState)
  : FinanceState :=
  match findTransaction id (transactions s) with
  | None => s
  | Some transaction =>
      let transactions' :=
        filter (fun t => negb (String.eqb (Transaction.id t) id))
               (transactions s) in
      let budgets' :=
        match Transaction.type transaction with
        | expense =>
            map (removeSpent (Transaction.category transaction)
                   (Transaction.amount transaction)) (budgets s)
        | income => budgets s
        end in
      {| transactions := transactions';
         savings := savings s;
         budgets := budgets';
         roundUpSavings := roundUpSavings s |}
  end.

(** ** Readers *)

(** [ts.reduce((sum, t) => sum + t.amount, 0)] *)
Definition sumAmounts (ts : list Transaction.t) : Q :=
  fold_left (fun sum t => sum + Transaction.amount t) ts 0.

Definition isIncome (t : Transaction.t) : bool :=
  TransactionType_eqb (Transaction.type t) income.

Definition isExpense (t : Transaction.t) : bool :=
  TransactionType_eqb (Transaction.type t) expense.

(** [t.type === 'expense' && t.category === category] *)
Definition isExpenseIn (category : string) (t : Transaction.t) : bool :=
  isExpense t && String.eqb (Transaction.category t) category.

(** [arr[i]] for an integer index; [None] is [undefined]. *)
Definition arrayGet {A : Type} (arr : list A) (i : Z) : option A :=
  if (i <? 0)%Z then None else nth_error arr (Z.to_nat i).

(** [Math.floor(r * n)] where [r] is the value of [Math.random()]. *)
Definition randomIndex (r : Q) (n : Z) : Z := Math_floor (r * inject_Z n).

Module Afford.
Record t : Type := mk {
  canAfford : bool;
  suggestion : option string
}.
End Afford.

Module Regret.
Record t : Type := mk {
  risk : jsnum;
  message : option string
}.
End Regret.

(** The array [suggestions] of [canAfford]. *)
Definition suggestions : list string :=
  [ "Consider saving for a few more days before this purchase";
    "Try the 24-hour rule before buying non-essentials";
    "Look for alternatives or wait for a sale";
    "Focus on your savings goals first";
    "Skip one dining out to make room for this purchase" ]%string.

Definition affirmation : string :=
  "You can afford this! Consider your other goals too.".

(** [sum(income) - sum(expenses)] over the store. *)
Definition availableBalance (ts : list Transaction.t) : Q :=
  let totalIncome := sumAmounts (filter isIncome ts) in
  let totalExpenses := sumAmounts (filter isExpense ts) in
  totalIncome - totalExpenses.

(** [canAfford]; [random] is the value [Math.random()] would return. *)
Definition canAfford (random : Q) (amount : Q) (s : FinanceState)
  : Afford.t :=
  let canAfford := Qgeb (availableBalance (transactions s)) amount in
  {| Afford.canAfford := canAfford;
     Afford.suggestion :=
       if canAfford then Some affirmation
       else arrayGet suggestions
              (randomIndex random (Z.of_nat (length suggestions))) |}.

(** The array [messages] of [checkRegretRisk]. *)
Definition messages : list string :=
  [ "You've been spending a lot in this category lately. Sure about this?";
    "Remember your savings goals. Is this purchase aligned?";
    "You bought something similar recently. Still need it?";
    "This might push you over budget. Consider waiting?";
    "Great choice! This fits well within your budget." ]%string.

(** The sum of the stored expenses of a category. *)
Definition categoryExpenses (category : string) (ts : list Transaction.t)
  : Q :=
  sumAmounts (filter (isExpenseIn category) ts).

(** [budgets.find(b => b.category === category)] *)
Definition findBudget (category : string) (bs : list Budget.t)
  : option Budget.t :=
  find (fun b => String.eqb (Budget.category b) category) bs.

(** [checkRegretRisk] *)
Definition checkRegretRisk (random : Q) (amount : Q) (category : string)
    (s : FinanceState) : Regret.t :=
  let categoryExpenses := categoryExpenses category (transactions s) in
  let budget := findBudget category (budgets s) in
  let risk :=
    match budget with
    | Some b => jsdiv (categoryExpenses + amount) (Budget.limit b)
    | None => Num 0.5
    end in
  {| Regret.risk := jsnum_min risk 1;
     Regret.message :=
       if jsnum_gtb risk 0.8 then arrayGet messages (randomIndex random 4)
       else arrayGet messages 4 |}.

(** ** Sequences of calls *)

Inductive Call : Type :=
| CallAdd (now : Z) (transaction : TransactionInput.t)
| CallEdit (id : string) (transaction : TransactionInput.t)
| CallDelete (id : string)
| CallAddGoal (now : Z) (goal : GoalInput.t)
| CallUpdateBudget (category : string) (limit : Q).

Definition call (c : Call) (s : FinanceState) : FinanceState :=
  match c with
  | CallAdd now t => addTransaction now t s
  | CallEdit i t => editTransaction i t s
  | CallDelete i => deleteTransaction i s
  | CallAddGoal now g => addSavingsGoal now g s
  | CallUpdateBudget c l => updateBudget c l s
  end.

(** The calls of [cs] in order, each on the state the previous one left. *)
Definition run (cs : list Call) (s : FinanceState) : FinanceState :=
  fold_left (fun st c => call c st) cs s.

(** A sequence of [addTransaction] calls, each with its clock reading. *)
Definition addAll (inputs : list (Z * TransactionInput.t))
    (s : FinanceState) : FinanceState :=
  fold_left (fun st nt => addTransaction (fst nt) (snd nt) st) inputs s.

(** The states the provider can be in: the initial one and those a call
    leads to. *)
Inductive reachable : FinanceState -> Prop :=
| reachable_init : reachable initialState
| reachable_call c s : reachable s -> reachable (call c s).

(** ** Derived views used in the statements *)

(** [Budget(c).spent], when a Budget entry exists for [c]. *)
Definition spentOf (c : string) (s : FinanceState) : option Q :=
  option_map Budget.spent (findBudget c (budgets s)).

(** Two budgets with the same category and limit and equal [spent]. *)
Definition sameBudget (b b' : Budget.t) : Prop :=
  Budget.category b' = Budget.category b
  /\ Budget.limit b' = Budget.limit b
  /\ Budget.spent b' == Budget.spent b.

(** The expense amounts of category [c] among the inputs of a sequence of
    [addTransaction] calls. *)
Definition addedExpenses (c : string)
    (inputs : list (Z * TransactionInput.t)) : Q :=
  fold_left
    (fun sum nt =>
       match TransactionInput.type (snd nt) with
       | expense =>
           if String.eqb (TransactionInput.category (snd nt)) c
           then sum + TransactionInput.amount (snd nt) else sum
       | income => sum
       end) inputs 0.

(** Every budget's [spent] is the sum of the stored expenses of its
    category. *)
Definition spentTracksStore (s : FinanceState) : Prop :=
  forall b, In b (budgets s) ->
    Budget.spent b == categoryExpenses (Budget.category b) (transactions s).

Definition budgetsNonNegative (s : FinanceState) : Prop :=
  Forall (fun b => 0 <= Budget.spent b) (budgets s).

(** The amount a call carries, if any, is not negative. *)
Definition amountNonNegative (c : Call) : Prop :=
  match c with
  | CallAdd _ t | CallEdit _ t => 0 <= TransactionInput.amount t
  | _ => True
  end.

(** What a budget of category [c] receives from an amount [a] booked on
    category [c']. *)
Definition contribution (c' : string) (a : Q) (b : Budget.t) : Q :=
  if String.eqb (Budget.category b) c' then a else 0.

(** The patch a sequence of [addTransaction] calls applies to one budget. *)
Definition addAllPatch (inputs : list (Z * TransactionInput.t))
    (b : Budget.t) : Budget.t :=
  fold_left
    (fun b nt =>
       match TransactionInput.type (snd nt) with
       | expense =>
           addSpent (TransactionInput.category (snd nt))
             (TransactionInput.amount (snd nt)) b
       | income => b
       end) inputs b.

(** The identifiers of the stored transactions. *)
Definition ids (s : FinanceState) : list string :=
  map Transaction.id (transactions s).

(** ** [getExpensesByCategory]

    The accumulator of the [reduce] is a plain object created as [{}]:
    reading [acc[k]] finds the object's own entries and, failing that,
    what [Object.prototype] answers to.  The own entries are a list of
    key/value pairs; a key is written at its first entry, a new key is
    added at the end.  (The list order is the order of first insertion;
    the order in which JavaScript enumerates integer-like keys is not
    modelled, and nothing below depends on it.)

    A value is a number or a string.  A string comes from [+] applied to
    something that is not a number; its text (the source text of a
    built-in function followed by digits) is not modelled, only that it
    is a non-empty string. *)

Inductive objValue : Type :=
| NumberValue (q : Q)
| StringValue.

(** The property names of [Object.prototype] as the language defines it
    (with the legacy accessors of its Annex B): under each of them a
    plain object answers with a function, and under [__proto__] with
    the prototype object. *)
Definition prototypeKeys : list string :=
  [ "constructor"; "hasOwnProperty"; "isPrototypeOf";
    "propertyIsEnumerable"; "toLocaleString"; "toString"; "valueOf";
    "__defineGetter__"; "__defineSetter__"; "__lookupGetter__";
    "__lookupSetter__"; "__proto__" ]%string.

Definition isPrototypeKey (k : string) : bool :=
  existsb (String.eqb k) prototypeKeys.

(** The own entry of [acc] under [k]. *)
Definition ownGet (k : string) (acc : list (string * objValue))
  : option objValue :=
  option_map snd (find (fun kv => String.eqb (fst kv) k) acc).

(** Writing the own entry of [acc] under [k]. *)
Fixpoint ownSet (k : string) (v : objValue) (acc : list (string * objValue))
  : list (string * objValue) :=
  match acc with
  | [] => [(k, v)]
  | (k', v') :: acc' =>
      if String.eqb k' k then (k', v) :: acc'
      else (k', v') :: ownSet k v acc'
  end.

(** [x || 0] for a number [x]: 0 for a stored 0. *)
Definition orZero (x : Q) : Q := if Qeq_bool x 0 then 0 else x.

(** One step of the [reduce]:
    [acc[category] = (acc[category] || 0) + amount].
    - An own number gives a number.
    - An own string is not empty, so [||] keeps it and [+] appends to it.
    - With no own entry, a key of [Object.prototype] reads a function or
      the prototype object, so [+] gives a string; the assignment creates
      an own entry, except under [__proto__], where the accessor of the
      prototype takes the assignment and ignores a string.
    - With no own entry and any other key, [undefined || 0] is 0. *)
Definition expensesStep (acc : list (string * objValue))
    (transaction : Transaction.t) : list (string * objValue) :=
  let k := Transaction.category transaction in
  match ownGet k acc with
  | Some (NumberValue v) =>
      ownSet k (NumberValue (orZero v + Transaction.amount transaction)) acc
  | Some StringValue => ownSet k StringValue acc
  | None =>
      if String.eqb k "__proto__" then acc
      else if isPrototypeKey k then ownSet k StringValue acc
      else ownSet k (NumberValue (0 + Transaction.amount transaction)) acc
  end.

(** [getExpensesByCategory]: the own entries of the object returned. *)
Definition getExpensesByCategory (s : FinanceState)
  : list (string * objValue) :=
  fold_left expensesStep (filter isExpense (transactions s)) [].

(** The number an entry holds; 0 for a string. *)
Definition numberOf (v : objValue) : Q :=
  match v with
  | NumberValue q => q
  | StringValue => 0
  end.

(** The number under [k] among the own entries; 0 when there is none or
    when it is a string. *)
Definition numberAt (k : string) (acc : list (string * objValue)) : Q :=
  match ownGet k acc with
  | Some v => numberOf v
  | None => 0
  end.

(** The sum of the numbers among the values of an object. *)
Definition objTotal (acc : list (string * objValue)) : Q :=
  fold_left (fun sum kv => sum + numberOf (snd kv)) acc 0.

(** Every own entry is a string under a key of [Object.prototype] and a
    number under any other key. *)
Definition entriesTyped (acc : list (string * objValue)) : Prop :=
  forall k v, In (k, v) acc ->
    match v with
    | StringValue => isPrototypeKey k = true
    | NumberValue _ => isPrototypeKey k = false
    end.

(** ** The dashboard's budget bars (the [budgets.map] of [Dashboard]) *)

(** [x * 100] where [x] may be infinite or NaN. *)
Definition jsnum_times100 (x : jsnum) : jsnum :=
  match x with
  | Num q => Num (q * 100)
  | PosInf => PosInf
  | NegInf => NegInf
  | NaN => NaN
  end.

(** [(budget.spent / budget.limit) * 100] *)
Definition percentage (budget : Budget.t) : jsnum :=
  jsnum_times100 (jsdiv (Budget.spent budget) (Budget.limit budget)).

(** [percentage > 100] *)
Definition isOverBudget (budget : Budget.t) : bool :=
  jsnum_gtb (percentage budget) 100.

(** The width of the bar: [Math.min(percentage, 100)]. *)
Definition barWidth (budget : Budget.t) : jsnum :=
  jsnum_min (percentage budget) 100.

Inductive BarColor : Type := red | amber | emerald.

(** [isOverBudget ? red : percentage > 80 ? amber : emerald] *)
Definition barColor (budget : Budget.t) : BarColor :=
  if isOverBudget budget then red
  else if jsnum_gtb (percentage budget) 80 then amber
  else emerald.

(** ** The voice entry ([VoiceTransactionModal])

    A transcript is the string of its UTF-8 bytes.  [toLowerCase] is the
    library function of that name; it is an argument of the parser. *)

(** The three bytes of the rupee sign. *)
Definition rupee : string :=
  String (Ascii.ascii_of_nat 226)
    (String (Ascii.ascii_of_nat 130)
       (String (Ascii.ascii_of_nat 185) EmptyString)).

(** [\d] *)
Definition isDigit (c : Ascii.ascii) : bool :=
  (48 <=? Ascii.nat_of_ascii c)%nat && (Ascii.nat_of_ascii c <=? 57)%nat.

(** The longest run of digits a string starts with. *)
Fixpoint takeDigits (s : string) : string :=
  match s with
  | EmptyString => EmptyString
  | String c rest =>
      if isDigit c then String c (takeDigits rest) else EmptyString
  end.

(** What follows [p] in [s], when [s] starts with [p]. *)
Fixpoint stripPrefix (p s : string) : option string :=
  match p with
  | EmptyString => Some s
  | String a p' =>
      match s with
      | EmptyString => None
      | String b s' => if Ascii.eqb a b then stripPrefix p' s' else None
      end
  end.

(** The group captured by the first match of the rupee sign followed by
    one or more digits, scanning from the left. *)
Fixpoint matchAmount (text : string) : option string :=
  match text with
  | EmptyString => None
  | String _ rest =>
      match stripPrefix rupee text with
      | Some tail =>
          match takeDigits tail with
          | EmptyString => matchAmount rest
          | digits => Some digits
          end
      | None => matchAmount rest
      end
  end.

(** [parseInt] of a string of digits, from the value [acc] of the digits
    read so far. *)
Fixpoint parseDigits (acc : Z) (digits : string) : Z :=
  match digits with
  | EmptyString => acc
  | String c rest =>
      parseDigits (10 * acc + (Z.of_nat (Ascii.nat_of_ascii c) - 48)) rest
  end.

Definition parseInt (digits : string) : Z := parseDigits 0 digits.

(** [hay.includes(needle)] *)
Fixpoint includes (hay needle : string) : bool :=
  String.prefix needle hay
  || match hay with
     | EmptyString => false
     | String _ rest => includes rest needle
     end.

(** [parseTranscript]; [now] is the clock reading when the record is
    built. *)
Definition parseTranscript (toLowerCase : string -> string) (now : Z)
    (text : string) : TransactionInput.t :=
  let amount :=
    match matchAmount text with
    | Some digits => inject_Z (parseInt digits)
    | None => 0
    end in
  let lower := toLowerCase text in
  let classified : TransactionType * string :=
    if includes lower "income" || includes lower "earn"
    then (income, "Salary"%string)
    else if includes lower "food" || includes lower "lunch"
    then (expense, "Food"%string)
    else if includes lower "transport" || includes lower "uber"
    then (expense, "Transportation"%string)
    else if includes lower "shopping" || includes lower "clothes"
    then (expense, "Shopping"%string)
    else if includes lower "saving"
    then (expense, "Savings"%string)
    else (expense, "Other"%string) in
  {| TransactionInput.amount := amount;
     TransactionInput.category := snd classified;
     TransactionInput.description := text;
     TransactionInput.type := fst classified;
     TransactionInput.date := DateAt now |}.

(** [confirmTransaction]: the parsed record, if there is one, goes to
    [addTransaction] as it is. *)
Definition confirmTransaction (parsedTransaction : option TransactionInput.t)
    (now : Z) (s : FinanceState) : FinanceState :=
  match parsedTransaction with
  | Some t => addTransaction now t s
  | None => s
  end.

(** ** The session ([AuthProvider])

    [storage] is the item [financeApp_user] of [localStorage];
    [stringify] stands for [JSON.stringify] on users.  Each operation is
    the update it performs once its simulated delay has elapsed.  The
    effect that restores a saved session when the provider is mounted
    (it needs [JSON.parse]) is not part of the model. *)

Module User.
Record t : Type := mk {
  id : string;
  name : string;
  email : string;
  avatar : option string
}.
End User.

Record AuthState : Type := mkAuth {
  user : option User.t;
  isAuthenticated : bool;
  storage : option string
}.

Definition avatarUrl : string :=
  "https://images.pexels.com/photos/220453/pexels-photo-220453.jpeg?auto=compress&cs=tinysrgb&w=150".

Definition signIn (stringify : User.t -> string) (mockUser : User.t)
  : AuthState :=
  {| user := Some mockUser;
     isAuthenticated := true;
     storage := Some (stringify mockUser) |}.

(** [login] *)
Definition login (stringify : User.t -> string) (email password : string)
    (st : AuthState) : AuthState :=
  signIn stringify (User.mk "1" "John Doe" email (Some avatarUrl)).

(** [register] *)
Definition register (stringify : User.t -> string) (now : Z)
    (name email password : string) (st : AuthState) : AuthState :=
  signIn stringify (User.mk (toString now) name email (Some avatarUrl)).

(** [socialLogin] *)
Definition socialLogin (stringify : User.t -> string) (now : Z)
    (provider : string) (st : AuthState) : AuthState :=
  signIn stringify
    (User.mk (toString now) ("User from " ++ provider)%string
       ("user@" ++ provider ++ ".com")%string (Some avatarUrl)).

(** [logout] *)
Definition logout (st : AuthState) : AuthState :=
  {| user := None; isAuthenticated := false; storage := None |}.

Inductive AuthCall : Type :=
| AuthLogin (email password : string)
| AuthRegister (now : Z) (name email password : string)
| AuthSocialLogin (now : Z) (provider : string)
| AuthLogout.

Definition authCall (stringify : User.t -> string) (c : AuthCall)
    (st : AuthState) : AuthState :=
  match c with
  | AuthLogin e p => login stringify e p st
  | AuthRegister now n e p => register stringify now n e p st
  | AuthSocialLogin now p => socialLogin stringify now p st
  | AuthLogout => logout st
  end.

Definition authRun (stringify : User.t -> string) (cs : list AuthCall)
    (st : AuthState) : AuthState :=
  fold_left (fun st c => authCall stringify c st) cs st.

(** The three session cells agree: authenticated exactly when a user is
    set, and the stored item is the serialised user. *)
Definition sessionCoherent (stringify : User.t -> string) (st : AuthState)
  : Prop :=
  isAuthenticated st = match user st with Some _ => true | None => false end
  /\ storage st = option_map stringify (user st).

(** The session before any sign-in, with nothing stored. *)
Definition signedOut : AuthState :=
  {| user := None; isAuthenticated := false; storage := None |}.

(** ** Consistency of the store with the budgets *)

(** What a budget's [spent] holds beyond the stored expenses of its
    category. *)
Definition drift (s : FinanceState) (b : Budget.t) : Q :=
  Budget.spent b - categoryExpenses (Budget.category b) (transactions s).

(** What a transaction counts for among the expenses of category [c]. *)
Definition share (c : string) (t : Transaction.t) : Q :=
  if isExpenseIn c t then Transaction.amount t else 0.

(** The two budget updates of [editTransaction] and [deleteTransaction]
    on one budget: the reversal of the record found, and the booking of
    the new record. *)
Definition reverseOld (old : Transaction.t) (b : Budget.t) : Budget.t :=
  match Transaction.type old with
  | expense =>
      removeSpent (Transaction.category old) (Transaction.amount old) b
  | income => b
  end.

Definition applyNew (t : TransactionInput.t) (b : Budget.t) : Budget.t :=
  match TransactionInput.type t with
  | expense =>
      addSpent (TransactionInput.category t) (TransactionInput.amount t) b
  | income => b
  end.

Definition amountsNonNegative (s : FinanceState) : Prop :=
  Forall (fun t => 0 <= Transaction.amount t) (transactions s).

Definition spentCoversStore (s : FinanceState) : Prop :=
  Forall (fun b => 0 <= drift s b) (budgets s).

(** Identifiers are distinct, no stored amount is negative and every
    budget's [spent] is at least the stored expenses of its category. *)
Definition consistent (s : FinanceState) : Prop :=
  NoDup (ids s) /\ amountsNonNegative s /\ spentCoversStore s.

(** A call that brings a non-negative amount and, for an addition, reads
    a clock value whose string is not yet an identifier of the store. *)
Definition admissible (c : Call) (s : FinanceState) : Prop :=
  match c with
  | CallAdd now t =>
      ~ In (toString now) (ids s) /\ 0 <= TransactionInput.amount t
  | CallEdit _ t => 0 <= TransactionInput.amount t
  | _ => True
  end.

Fixpoint admissibleRun (cs : list Call) (s : FinanceState) : Prop :=
  match cs with
  | [] => True
  | c :: cs' => admissible c s /\ admissibleRun cs' (call c s)
  end.

(** The number of [addSavingsGoal] calls of a sequence. *)
Definition goalCalls (cs : list Call) : list (Z * GoalInput.t) :=
  flat_map (fun c => match c with
                     | CallAddGoal now g => [(now, g)]
                     | _ => []
                     end) cs.

(** ** Sample inputs and states *)

(** An expense with a fractional amount. *)
Definition lunch : TransactionInput.t :=
  TransactionInput.mk 99.40 "Food" "Lunch" (DateAt 1700000000000) expense.

(** An expense with a negative amount. *)
Definition refund : TransactionInput.t :=
  TransactionInput.mk (-3000) "Food" "Refund" (DateAt 1700000000000) expense.

(** The first seeded transaction, and the same expense booked on
    [Shopping]. *)
Definition groceries : Transaction.t :=
  Transaction.mk "1" 2500 "Food" "Grocery shopping" (DateOf 2024 0 15)
    expense.

Definition groceriesAsShopping : TransactionInput.t :=
  TransactionInput.mk 2500 "Shopping" "Grocery shopping" (DateOf 2024 0 15)
    expense.

(** An expense of 2500 on [Food]. *)
Definition dinner : TransactionInput.t :=
  TransactionInput.mk 2500 "Food" "Dinner" (DateAt 1700000000000) expense.

(** A state that tracks its store: the seeded transactions with the two
    budgets they belong to. *)
Definition trackedState : FinanceState :=
  {| transactions := transactions initialState;
     savings := [];
     budgets := [ Budget.mk "Food" 5000 2500;
                  Budget.mk "Transportation" 2000 800 ];
     roundUpSavings := 0 |}.

(** The state the provider reaches from its initial one when [refund] is
    added: [Food]'s [spent] is then -500. *)
Definition overdrawnState : FinanceState :=
  addTransaction 1700000000000 refund initialState.

(** An addition followed by deletions that come twice and an edit of a
    record that is gone. *)
Definition outOfOrderCalls : list Call :=
  [ CallAdd 1700000000000 lunch;
    CallDelete "1";
    CallDelete "1";
    CallEdit "3" groceriesAsShopping;
    CallDelete (toString 1700000000000);
    CallEdit "1" groceriesAsShopping ].

(** An addition, an edit that moves a record to another category,
    deletions (one of them repeated), a limit update and a later
    addition. *)
Definition mixedCalls : list Call :=
  [ CallAdd 1700000000000 lunch;
    CallEdit "1" groceriesAsShopping;
    CallDelete "3";
    CallDelete "3";
    CallUpdateBudget "Food" 100;
    CallAdd 1700000000001 dinner ].

(** An expense of a category without a budget, and the seeded salary. *)
Definition gift : TransactionInput.t :=
  TransactionInput.mk 500 "Other" "Gift" (DateAt 1700000000000) expense.

Definition salary : Transaction.t :=
  Transaction.mk "2" 5000 "Salary" "Monthly salary" (DateOf 2024 0 1) income.

(** The initial state with every [spent] put to 0. *)
Definition spentCleared : FinanceState :=
  {| transactions := transactions initialState;
     savings := savings initialState;
     budgets := map (fun b => Budget.mk (Budget.category b)
                                (Budget.limit b) 0)
                  (budgets initialState);
     roundUpSavings := roundUpSavings initialState |}.

(** Expenses whose category names a property of [Object.prototype]. *)
Definition protoExpense : TransactionInput.t :=
  TransactionInput.mk 5 "__proto__" "Odd" (DateAt 1700000000000) expense.

Definition toStringExpense : TransactionInput.t :=
  TransactionInput.mk 5 "toString" "Odd" (DateAt 1700000000000) expense.

(** * Properties *)

(** ** Arithmetic of the number model *)

Lemma Qgtb_true (a b : Q) : Qgtb a b = true <-> b < a.
Proof.
  unfold Qgtb. rewrite negb_true_iff. split; intro H.
  - destruct (Qlt_le_dec b a) as [Hlt | Hle]; [exact Hlt |].
    apply Qle_bool_iff in Hle. congruence.
  - destruct (Qle_bool a b) eqn:E; [| reflexivity].
    apply Qle_bool_iff in E. lra.
Qed.

Lemma Qgtb_false (a b : Q) : Qgtb a b = false <-> a <= b.
Proof.
  unfold Qgtb. rewrite negb_false_iff. apply Qle_bool_iff.
Qed.

Lemma Math_max_0_nonneg (x : Q) : 0 <= Math_max 0 x.
Proof.
  unfold Math_max. destruct (Qle_bool 0 x) eqn:E.
  - now apply Qle_bool_iff.
  - lra.
Qed.

Lemma Math_max_0_id (x : Q) : 0 <= x -> Math_max 0 x == x.
Proof.
  intro H. unfold Math_max. destruct (Qle_bool 0 x) eqn:E.
  - reflexivity.
  - apply Qle_bool_iff in H. congruence.
Qed.

Lemma Math_min_le_r (x c : Q) : Math_min x c <= c.
Proof.
  unfold Math_min. destruct (Qle_bool x c) eqn:E.
  - now apply Qle_bool_iff.
  - lra.
Qed.

Lemma Math_min_glb (x c m : Q) : m <= x -> m <= c -> m <= Math_min x c.
Proof.
  intros Hx Hc. unfold Math_min. now destruct (Qle_bool x c).
Qed.

Lemma Math_ceil_ge (a : Q) : 0 <= Math_ceil a - a.
Proof.
  unfold Math_ceil. pose proof (Qle_ceiling a). lra.
Qed.

(** ** Sums written as [reduce] *)

Section FoldSum.
Context {A : Type} (f : Q -> A -> Q).
Hypothesis f_shift : forall a x, f a x == a + f 0 x.

Lemma fold_sum_shift (l : list A) (a : Q) :
  fold_left f l a == a + fold_left f l 0.
Proof.
  revert a. induction l as [| x l IH]; intro a; simpl.
  - lra.
  - rewrite (IH (f a x)), (IH (f 0 x)), (f_shift a x). lra.
Qed.

Lemma fold_sum_cons (x : A) (l : list A) :
  fold_left f (x :: l) 0 == f 0 x + fold_left f l 0.
Proof.
  simpl. apply fold_sum_shift.
Qed.
End FoldSum.

Lemma sumAmounts_cons (t : Transaction.t) (ts : list Transaction.t) :
  sumAmounts (t :: ts) == Transaction.amount t + sumAmounts ts.
Proof.
  unfold sumAmounts.
  rewrite (fold_sum_cons (fun sum t => sum + Transaction.amount t)).
  - lra.
  - intros; lra.
Qed.

Lemma categoryExpenses_cons (c : string) (t : Transaction.t)
    (ts : list Transaction.t) :
  categoryExpenses c (t :: ts)
  == (if isExpenseIn c t then Transaction.amount t else 0)
     + categoryExpenses c ts.
Proof.
  unfold categoryExpenses. simpl.
  destruct (isExpenseIn c t).
  - apply sumAmounts_cons.
  - lra.
Qed.

Lemma addedExpenses_cons (c : string) (nt : Z * TransactionInput.t)
    (inputs : list (Z * TransactionInput.t)) :
  addedExpenses c (nt :: inputs)
  == addedExpenses c [nt] + addedExpenses c inputs.
Proof.
  unfold addedExpenses at 1 3.
  rewrite fold_sum_cons.
  - unfold addedExpenses. simpl. lra.
  - intros a x. destruct (TransactionInput.type (snd x)); [lra |].
    destruct (String.eqb _ c); lra.
Qed.

(** ** Lists of budgets *)

Lemma Forall2_map_self {A : Type} (R : A -> A -> Prop) (f : A -> A)
    (l : list A) :
  (forall x, In x l -> R x (f x)) -> Forall2 R l (map f l).
Proof.
  induction l as [| x l IH]; intro H; simpl; constructor.
  - apply H. now left.
  - apply IH. intros y Hy. apply H. now right.
Qed.

Lemma Forall2_same {A : Type} (R : A -> A -> Prop) (l : list A) :
  (forall x, In x l -> R x x) -> Forall2 R l l.
Proof.
  intro H. rewrite <- (map_id l) at 2. now apply Forall2_map_self.
Qed.

Lemma addSpent_category c a b :
  Budget.category (addSpent c a b) = Budget.category b.
Proof. unfold addSpent. now destruct (String.eqb _ c). Qed.

Lemma addSpent_limit c a b :
  Budget.limit (addSpent c a b) = Budget.limit b.
Proof. unfold addSpent. now destruct (String.eqb _ c). Qed.

Lemma addSpent_spent c a b :
  Budget.spent (addSpent c a b)
  = if String.eqb (Budget.category b) c then Budget.spent b + a
    else Budget.spent b.
Proof. unfold addSpent. now destruct (String.eqb _ c). Qed.

Lemma removeSpent_category c a b :
  Budget.category (removeSpent c a b) = Budget.category b.
Proof. unfold removeSpent. now destruct (String.eqb _ c). Qed.

Lemma removeSpent_limit c a b :
  Budget.limit (removeSpent c a b) = Budget.limit b.
Proof. unfold removeSpent. now destruct (String.eqb _ c). Qed.

Lemma removeSpent_spent c a b :
  Budget.spent (removeSpent c a b)
  = if String.eqb (Budget.category b) c
    then Math_max 0 (Budget.spent b - a) else Budget.spent b.
Proof. unfold removeSpent. now destruct (String.eqb _ c). Qed.

Lemma addAll_budgets inputs s :
  budgets (addAll inputs s) = map (addAllPatch inputs) (budgets s).
Proof.
  revert s. induction inputs as [| [now t] inputs IH]; intro s; simpl.
  - now rewrite map_id.
  - unfold addAll in IH |- *. simpl. rewrite IH. simpl.
    destruct (TransactionInput.type t) eqn:E.
    + apply map_ext. intro b. unfold addAllPatch. simpl. now rewrite E.
    + rewrite map_map. apply map_ext. intro b.
      unfold addAllPatch. simpl. now rewrite E.
Qed.

Lemma addAllPatch_category inputs b :
  Budget.category (addAllPatch inputs b) = Budget.category b.
Proof.
  revert b. induction inputs as [| nt inputs IH]; intro b; simpl.
  - reflexivity.
  - unfold addAllPatch in IH |- *. simpl. rewrite IH.
    destruct (TransactionInput.type (snd nt)); [reflexivity |].
    apply addSpent_category.
Qed.

Lemma addAllPatch_limit inputs b :
  Budget.limit (addAllPatch inputs b) = Budget.limit b.
Proof.
  revert b. induction inputs as [| nt inputs IH]; intro b; simpl.
  - reflexivity.
  - unfold addAllPatch in IH |- *. simpl. rewrite IH.
    destruct (TransactionInput.type (snd nt)); [reflexivity |].
    apply addSpent_limit.
Qed.

Lemma addAllPatch_spent inputs b :
  Budget.spent (addAllPatch inputs b)
  == Budget.spent b + addedExpenses (Budget.category b) inputs.
Proof.
  revert b. induction inputs as [| nt inputs IH]; intro b.
  - unfold addedExpenses. simpl. lra.
  - rewrite addedExpenses_cons.
    change (addAllPatch (nt :: inputs) b)
      with (addAllPatch inputs (addAllPatch [nt] b)).
    rewrite IH. rewrite (addAllPatch_category [nt] b).
    unfold addAllPatch, addedExpenses. simpl.
    destruct (TransactionInput.type (snd nt)); [lra |].
    rewrite addSpent_spent.
    rewrite (String.eqb_sym (Budget.category b)).
    destruct (String.eqb _ (Budget.category b)); lra.
Qed.

Lemma addAll_categoryExpenses inputs s c :
  categoryExpenses c (transactions (addAll inputs s))
  == categoryExpenses c (transactions s) + addedExpenses c inputs.
Proof.
  revert s. induction inputs as [| [now t] inputs IH]; intro s.
  - unfold addedExpenses. simpl. lra.
  - rewrite addedExpenses_cons.
    change (addAll ((now, t) :: inputs) s)
      with (addAll inputs (addTransaction now t s)).
    rewrite IH. simpl transactions.
    rewrite categoryExpenses_cons.
    unfold addedExpenses, isExpenseIn, isExpense. simpl.
    destruct (TransactionInput.type t); simpl; [lra |].
    destruct (String.eqb _ c); lra.
Qed.

(** ** C1: additivity of budget spend *)

(** C1, as stated, fails in the state the provider starts in: the
    budget of [Entertainment] records 1200 spent while the store holds no
    expense of that category. *)
Lemma spent_not_sum_initially :
  reachable initialState
  /\ spentOf "Entertainment" initialState = Some 1200
  /\ categoryExpenses "Entertainment" (transactions initialState) == 0
  /\ ~ spentTracksStore initialState.
Proof.
  split; [constructor |]. split; [reflexivity |]. split; [reflexivity |].
  intro H.
  specialize (H (Budget.mk "Entertainment" 3000 1200)).
  assert (Hin : In (Budget.mk "Entertainment" 3000 1200)
                  (budgets initialState)).
  { simpl. right. right. left. reflexivity. }
  apply H in Hin. vm_compute in Hin. discriminate Hin.
Qed.

(** C1 (amended): after any sequence of [addTransaction] calls every
    budget keeps its category and limit and its [spent] is its value
    before the calls plus the sum of the added expense amounts of its
    category; the stored expenses of each category grow by the same sum;
    hence a state in which every [spent] equals the stored expenses of its
    category is led to another such state. *)
Theorem addTransaction_additivity
    (inputs : list (Z * TransactionInput.t)) (s : FinanceState) :
  Forall2
    (fun b b' =>
       Budget.category b' = Budget.category b
       /\ Budget.limit b' = Budget.limit b
       /\ Budget.spent b'
          == Budget.spent b + addedExpenses (Budget.category b) inputs)
    (budgets s) (budgets (addAll inputs s))
  /\ (forall c,
        categoryExpenses c (transactions (addAll inputs s))
        == categoryExpenses c (transactions s) + addedExpenses c inputs)
  /\ (spentTracksStore s -> spentTracksStore (addAll inputs s)).
Proof.
  split; [| split].
  - rewrite addAll_budgets. apply Forall2_map_self. intros b _.
    split; [apply addAllPatch_category |].
    split; [apply addAllPatch_limit | apply addAllPatch_spent].
  - intro c. apply addAll_categoryExpenses.
  - intros H b' Hb'. rewrite addAll_budgets in Hb'.
    apply in_map_iff in Hb'. destruct Hb' as [b [<- Hb]].
    rewrite addAllPatch_category, addAllPatch_spent,
      addAll_categoryExpenses, (H b Hb).
    reflexivity.
Qed.

Lemma trackedState_tracks : spentTracksStore trackedState.
Proof.
  intros b [<- | [<- | []]]; reflexivity.
Qed.

Lemma addTransaction_additivity_witness :
  spentTracksStore trackedState
  /\ spentTracksStore (addAll [(1700000000000%Z, lunch)] trackedState).
Proof.
  split.
  - exact trackedState_tracks.
  - apply (addTransaction_additivity [(1700000000000%Z, lunch)] trackedState).
    exact trackedState_tracks.
Defined.

(** With [Food] at 2500 of 5000, an added expense of 2500 on [Food] takes
    its [spent] to 5000. *)
Example food_spent_after_dinner :
  exists x,
    spentOf "Food" (addTransaction 1700000000000 dinner initialState)
    = Some x
    /\ x == 5000.
Proof. eexists. split; reflexivity. Qed.

(** ** C2: an addition undone by a deletion *)

Lemma findTransaction_head i t ts :
  findTransaction i (withId i t :: ts) = Some (withId i t).
Proof.
  unfold findTransaction. simpl. now rewrite String.eqb_refl.
Qed.

(** What [deleteTransaction] makes of the budgets once the transaction
    has just been added. *)
Lemma add_then_delete_budgets now t s :
  budgets (deleteTransaction (toString now) (addTransaction now t s))
  = match TransactionInput.type t with
    | expense =>
        map (fun b =>
               removeSpent (TransactionInput.category t)
                 (TransactionInput.amount t)
                 (addSpent (TransactionInput.category t)
                    (TransactionInput.amount t) b))
            (budgets s)
    | income => budgets s
    end.
Proof.
  unfold deleteTransaction, addTransaction. cbn [transactions].
  rewrite findTransaction_head. cbn [budgets withId Transaction.type
    Transaction.category Transaction.amount].
  destruct (TransactionInput.type t); [reflexivity |].
  now rewrite map_map.
Qed.

Lemma remove_add_spent c a b :
  Budget.spent (removeSpent c a (addSpent c a b))
  == if String.eqb (Budget.category b) c
     then Math_max 0 (Budget.spent b) else Budget.spent b.
Proof.
  rewrite removeSpent_spent, addSpent_category, addSpent_spent.
  destruct (String.eqb (Budget.category b) c); [| reflexivity].
  unfold Math_max.
  destruct (Qle_bool 0 (Budget.spent b + a - a)) eqn:E1;
    destruct (Qle_bool 0 (Budget.spent b)) eqn:E2;
    try lra; try reflexivity.
  - apply Qle_bool_iff in E1.
    assert (H : 0 <= Budget.spent b) by lra.
    apply Qle_bool_iff in H. congruence.
  - apply Qle_bool_iff in E2.
    assert (H : 0 <= Budget.spent b + a - a) by lra.
    apply Qle_bool_iff in H. congruence.
Qed.

(** C2, as stated, fails in a reachable state: with [Food]'s [spent] at
    -500, adding an expense to [Food] and deleting it again leaves [spent]
    at 0. *)
Lemma add_then_delete_changes_spent :
  reachable overdrawnState
  /\ exists before after : Q,
       spentOf "Food" overdrawnState = Some before
       /\ spentOf "Food"
            (deleteTransaction (toString 1700000000001)
               (addTransaction 1700000000001 lunch overdrawnState))
          = Some after
       /\ before == -500
       /\ after == 0.
Proof.
  split.
  - exact (reachable_call (CallAdd 1700000000000 refund) _ reachable_init).
  - eexists. eexists.
    split; [reflexivity |]. split; [reflexivity |].
    split; reflexivity.
Qed.

(** C2 (amended): [addTransaction] followed by [deleteTransaction] of the
    identifier it assigned leaves the category and the limit of every
    budget as they were; the [spent] of a budget of the transaction's
    category ends at [max(0, spent)], every other [spent] is untouched.
    Hence all budgets are as before whenever the budgets of that category
    had a non-negative [spent]. *)
Theorem add_then_delete_restores_spent
    (now : Z) (t : TransactionInput.t) (s : FinanceState) :
  let s' := deleteTransaction (toString now) (addTransaction now t s) in
  Forall2
    (fun b b' =>
       Budget.category b' = Budget.category b
       /\ Budget.limit b' = Budget.limit b
       /\ Budget.spent b'
          == match TransactionInput.type t with
             | expense =>
                 if String.eqb (Budget.category b)
                      (TransactionInput.category t)
                 then Math_max 0 (Budget.spent b) else Budget.spent b
             | income => Budget.spent b
             end)
    (budgets s) (budgets s')
  /\ (Forall (fun b => Budget.category b = TransactionInput.category t ->
                       0 <= Budget.spent b) (budgets s) ->
      Forall2 sameBudget (budgets s) (budgets s')).
Proof.
  intro s'. subst s'. rewrite add_then_delete_budgets. split.
  - destruct (TransactionInput.type t).
    + apply Forall2_same. intros b _. repeat split; reflexivity.
    + apply Forall2_map_self. intros b _.
      rewrite removeSpent_category, removeSpent_limit,
        addSpent_category, addSpent_limit.
      split; [reflexivity |]. split; [reflexivity |].
      apply remove_add_spent.
  - intro Hnn. destruct (TransactionInput.type t).
    + apply Forall2_same. intros b _. repeat split; reflexivity.
    + apply Forall2_map_self. intros b Hb. unfold sameBudget.
      rewrite removeSpent_category, removeSpent_limit,
        addSpent_category, addSpent_limit.
      split; [reflexivity |]. split; [reflexivity |].
      rewrite remove_add_spent.
      destruct (String.eqb (Budget.category b)
                  (TransactionInput.category t)) eqn:E; [| reflexivity].
      apply Math_max_0_id.
      rewrite Forall_forall in Hnn. apply (Hnn b Hb).
      now apply String.eqb_eq.
Qed.

Lemma initialState_budgets_nonneg : budgetsNonNegative initialState.
Proof.
  unfold budgetsNonNegative, initialState. cbn [budgets].
  repeat constructor; discriminate.
Qed.

Lemma add_then_delete_restores_spent_witness :
  Forall2 sameBudget (budgets initialState)
    (budgets (deleteTransaction (toString 1700000000000)
                (addTransaction 1700000000000 lunch initialState))).
Proof.
  apply (add_then_delete_restores_spent 1700000000000 lunch initialState).
  eapply Forall_impl; [| exact initialState_budgets_nonneg].
  intros b H _. exact H.
Defined.

(** ** C3: reclassification by an edit *)

Lemma editTransaction_budgets id old new s :
  findTransaction id (transactions s) = Some old ->
  budgets (editTransaction id new s)
  = let budgets1 :=
      match Transaction.type old with
      | expense =>
          map (removeSpent (Transaction.category old)
                 (Transaction.amount old)) (budgets s)
      | income => budgets s
      end in
    match TransactionInput.type new with
    | expense =>
        map (addSpent (TransactionInput.category new)
               (TransactionInput.amount new)) budgets1
    | income => budgets1
    end.
Proof.
  intro Hfind. unfold editTransaction. rewrite Hfind. reflexivity.
Qed.

(** C3, as stated, fails in a reachable state: with [Food]'s [spent] at
    -500, the edit that rebooks the seeded grocery expense of 2500 from
    [Food] to [Shopping] raises [Shopping] from 3500 to 6000, while
    [Food] does not give up 2500: the clamp takes it from -500 to 0. *)
Lemma edit_moves_less_than_amount :
  reachable overdrawnState
  /\ findTransaction "1" (transactions overdrawnState) = Some groceries
  /\ exists foodBefore foodAfter shoppingBefore shoppingAfter : Q,
       spentOf "Food" overdrawnState = Some foodBefore
       /\ spentOf "Food"
            (editTransaction "1" groceriesAsShopping overdrawnState)
          = Some foodAfter
       /\ spentOf "Shopping" overdrawnState = Some shoppingBefore
       /\ spentOf "Shopping"
            (editTransaction "1" groceriesAsShopping overdrawnState)
          = Some shoppingAfter
       /\ foodBefore == -500
       /\ foodAfter == 0
       /\ shoppingBefore == 3500
       /\ shoppingAfter == 6000
       /\ ~ foodAfter == foodBefore - 2500.
Proof.
  split.
  - exact (reachable_call (CallAdd 1700000000000 refund) _ reachable_init).
  - split; [reflexivity |].
    eexists. eexists. eexists. eexists.
    repeat (split; [reflexivity |]).
    intro H. vm_compute in H. discriminate H.
Qed.

(** C3 (amended): when [editTransaction] finds an expense [old] under the
    identifier, each budget keeps its category and limit, and
    - if the new record is an expense, the [spent] of the budgets of the
      old category is first lowered by the old amount (not below 0) and
      the [spent] of the budgets of the new category is then raised by the
      new amount;
    - if the new record is an income, the [spent] of the budgets of the
      old category is lowered by the old amount (not below 0) and nothing
      is raised.
    When the [spent] of a budget of the old category covers the old
    amount, the old amount leaves it exactly: an edit from category A to category B with
    the amount kept moves the amount from A's [spent] to B's. *)
Theorem edit_reclassifies
    (id : string) (old : Transaction.t) (new : TransactionInput.t)
    (s : FinanceState) :
  findTransaction id (transactions s) = Some old ->
  Transaction.type old = expense ->
  Forall2
    (fun b b' =>
       Budget.category b' = Budget.category b
       /\ Budget.limit b' = Budget.limit b
       /\ Budget.spent b'
          == (if String.eqb (Budget.category b) (Transaction.category old)
              then Math_max 0 (Budget.spent b - Transaction.amount old)
              else Budget.spent b)
             + match TransactionInput.type new with
               | expense =>
                   contribution (TransactionInput.category new)
                     (TransactionInput.amount new) b
               | income => 0
               end
       /\ ((Budget.category b = Transaction.category old ->
            Transaction.amount old <= Budget.spent b) ->
           Budget.spent b'
           == Budget.spent b
              - contribution (Transaction.category old)
                  (Transaction.amount old) b
              + match TransactionInput.type new with
                | expense =>
                    contribution (TransactionInput.category new)
                      (TransactionInput.amount new) b
                | income => 0
                end))
    (budgets s) (budgets (editTransaction id new s)).
Proof.
  intros Hfind Hold.
  rewrite (editTransaction_budgets id old new s Hfind), Hold. cbv zeta.
  assert (Hrem : forall b,
    Budget.spent (removeSpent (Transaction.category old)
                    (Transaction.amount old) b)
    == (if String.eqb (Budget.category b) (Transaction.category old)
        then Math_max 0 (Budget.spent b - Transaction.amount old)
        else Budget.spent b)
    /\ ((Budget.category b = Transaction.category old ->
         Transaction.amount old <= Budget.spent b) ->
        Budget.spent (removeSpent (Transaction.category old)
                        (Transaction.amount old) b)
        == Budget.spent b
           - contribution (Transaction.category old)
               (Transaction.amount old) b)).
  { intro b. rewrite removeSpent_spent. unfold contribution.
    destruct (String.eqb (Budget.category b) (Transaction.category old))
      eqn:E.
    - split; [reflexivity |]. intro H.
      apply String.eqb_eq in E. specialize (H E).
      apply Math_max_0_id. lra.
    - split; [reflexivity |]. intros _. lra. }
  destruct (TransactionInput.type new).
  - apply Forall2_map_self. intros b _.
    rewrite removeSpent_category, removeSpent_limit.
    destruct (Hrem b) as [H1 H2].
    split; [reflexivity |]. split; [reflexivity |]. split.
    + rewrite H1. lra.
    + intro H. rewrite (H2 H). lra.
  - rewrite map_map. apply Forall2_map_self. intros b _.
    rewrite addSpent_category, addSpent_limit, addSpent_spent,
      removeSpent_category, removeSpent_limit.
    destruct (Hrem b) as [H1 H2].
    split; [reflexivity |]. split; [reflexivity |].
    unfold contribution at 1 3.
    destruct (String.eqb (Budget.category b)
                (TransactionInput.category new)).
    + split; [rewrite H1; lra | intro H; rewrite (H2 H); lra].
    + split; [rewrite H1; lra | intro H; rewrite (H2 H); lra].
Qed.

(** The seeded grocery expense is moved from [Food] to [Shopping]:
    [Food] goes from 2500 to 0 and [Shopping] from 3500 to 6000. *)
Lemma edit_reclassifies_witness :
  findTransaction "1" (transactions initialState) = Some groceries
  /\ Transaction.type groceries = expense
  /\ Forall2
       (fun b b' =>
          Budget.category b' = Budget.category b
          /\ Budget.limit b' = Budget.limit b
          /\ Budget.spent b'
             == (if String.eqb (Budget.category b) "Food"
                 then Math_max 0 (Budget.spent b - 2500)
                 else Budget.spent b)
                + contribution "Shopping" 2500 b
          /\ ((Budget.category b = "Food"%string -> 2500 <= Budget.spent b) ->
              Budget.spent b'
              == Budget.spent b - contribution "Food" 2500 b
                 + contribution "Shopping" 2500 b))
       (budgets initialState)
       (budgets (editTransaction "1" groceriesAsShopping initialState)).
Proof.
  split; [reflexivity |]. split; [reflexivity |].
  exact (edit_reclassifies "1" groceries groceriesAsShopping initialState
           eq_refl eq_refl).
Defined.

(** ** C4: non-negativity of [spent] *)

Lemma Forall_map_preserved {A : Type} (P : A -> Prop) (f : A -> A)
    (l : list A) :
  (forall x, P x -> P (f x)) -> Forall P l -> Forall P (map f l).
Proof.
  intros Hf Hl. induction Hl; simpl; constructor; auto.
Qed.

Lemma addSpent_nonneg c a b :
  0 <= a -> 0 <= Budget.spent b -> 0 <= Budget.spent (addSpent c a b).
Proof.
  intros Ha Hb. rewrite addSpent_spent.
  destruct (String.eqb _ c); lra.
Qed.

Lemma removeSpent_nonneg c a b :
  0 <= Budget.spent b -> 0 <= Budget.spent (removeSpent c a b).
Proof.
  intro Hb. rewrite removeSpent_spent.
  destruct (String.eqb _ c); [apply Math_max_0_nonneg | exact Hb].
Qed.

Lemma call_budgets_nonneg c s :
  amountNonNegative c -> budgetsNonNegative s ->
  budgetsNonNegative (call c s).
Proof.
  unfold budgetsNonNegative.
  destruct c as [now t | i t | i | now g | cat l]; simpl; intros Ha Hs.
  - destruct (TransactionInput.type t); [exact Hs |].
    apply Forall_map_preserved; [| exact Hs].
    intros b. now apply addSpent_nonneg.
  - unfold editTransaction.
    destruct (findTransaction i (transactions s)) as [old |]; [| exact Hs].
    cbn [budgets].
    assert (H1 : Forall (fun b => 0 <= Budget.spent b)
                   match Transaction.type old with
                   | income => budgets s
                   | expense =>
                       map (removeSpent (Transaction.category old)
                              (Transaction.amount old)) (budgets s)
                   end).
    { destruct (Transaction.type old); [exact Hs |].
      apply Forall_map_preserved; [| exact Hs].
      intro b. apply removeSpent_nonneg. }
    destruct (TransactionInput.type t); [exact H1 |].
    apply Forall_map_preserved; [| exact H1].
    intros b. now apply addSpent_nonneg.
  - unfold deleteTransaction.
    destruct (findTransaction i (transactions s)) as [old |]; [| exact Hs].
    cbn [budgets].
    destruct (Transaction.type old); [exact Hs |].
    apply Forall_map_preserved; [| exact Hs].
    intro b. apply removeSpent_nonneg.
  - exact Hs.
  - apply Forall_map_preserved; [| exact Hs].
    intros b Hb. unfold setLimit.
    now destruct (String.eqb _ cat).
Qed.

(** C4, as stated, fails: [addTransaction] with an expense of amount
    -3000 on [Food] takes the initial state to one where [Food]'s [spent]
    is -500. *)
Lemma spent_negative_after_add :
  overdrawnState = call (CallAdd 1700000000000 refund) initialState
  /\ (exists x, spentOf "Food" overdrawnState = Some x /\ x == -500)
  /\ ~ budgetsNonNegative overdrawnState.
Proof.
  split; [reflexivity |]. split.
  - eexists. split; reflexivity.
  - intro H. inversion H as [| b l Hb _]. subst.
    vm_compute in Hb. now apply Hb.
Qed.

(** C4 (amended): from a state whose budgets have a non-negative [spent],
    any sequence of calls (additions, edits, deletions in any order,
    limit updates, new goals) whose transaction amounts are not negative
    leads to a state whose budgets have a non-negative [spent]. *)
Theorem spent_stays_nonnegative (cs : list Call) (s : FinanceState) :
  budgetsNonNegative s ->
  Forall amountNonNegative cs ->
  budgetsNonNegative (run cs s).
Proof.
  intros Hs Hcs. revert s Hs.
  induction Hcs as [| c cs Hc _ IH]; intros s Hs.
  - exact Hs.
  - unfold run in *. simpl. apply IH. now apply call_budgets_nonneg.
Qed.

Lemma outOfOrderCalls_amounts : Forall amountNonNegative outOfOrderCalls.
Proof.
  unfold outOfOrderCalls.
  repeat constructor; simpl; discriminate.
Qed.

Lemma spent_stays_nonnegative_witness :
  budgetsNonNegative (run outOfOrderCalls initialState).
Proof.
  apply (spent_stays_nonnegative outOfOrderCalls initialState).
  - exact initialState_budgets_nonneg.
  - exact outOfOrderCalls_amounts.
Defined.

(** ** C5: the round-up accumulator *)

Lemma addTransaction_roundUp now t s :
  roundUpSavings (addTransaction now t s)
  == roundUpSavings s
     + match TransactionInput.type t with
       | expense =>
           Math_ceil (TransactionInput.amount t) - TransactionInput.amount t
       | income => 0
       end.
Proof.
  unfold addTransaction. cbn [roundUpSavings].
  destruct (TransactionInput.type t); [lra |].
  destruct (Qgtb _ 0) eqn:E; [reflexivity |].
  apply Qgtb_false in E.
  pose proof (Math_ceil_ge (TransactionInput.amount t)). lra.
Qed.

Lemma editTransaction_roundUp i t s :
  roundUpSavings (editTransaction i t s) = roundUpSavings s.
Proof.
  unfold editTransaction.
  now destruct (findTransaction i (transactions s)).
Qed.

Lemma deleteTransaction_roundUp i s :
  roundUpSavings (deleteTransaction i s) = roundUpSavings s.
Proof.
  unfold deleteTransaction.
  now destruct (findTransaction i (transactions s)).
Qed.

Lemma call_roundUp_monotone c s :
  roundUpSavings s <= roundUpSavings (call c s).
Proof.
  destruct c as [now t | i t | i | now g | cat l]; cbn [call].
  - rewrite addTransaction_roundUp.
    destruct (TransactionInput.type t); [lra |].
    pose proof (Math_ceil_ge (TransactionInput.amount t)). lra.
  - rewrite editTransaction_roundUp. lra.
  - rewrite deleteTransaction_roundUp. lra.
  - simpl. lra.
  - simpl. lra.
Qed.

(** C5: the round-up accumulator never decreases along a sequence of
    calls.  [addTransaction] of an expense raises it by
    [ceil(amount) - amount], which is never negative (nothing is added
    when it is 0); [addTransaction] of an income, [editTransaction],
    [deleteTransaction], [addSavingsGoal] and [updateBudget] leave it as
    it is. *)
Theorem roundUp_monotone :
  (forall cs s, roundUpSavings s <= roundUpSavings (run cs s))
  /\ (forall now t s,
        0 <= Math_ceil (TransactionInput.amount t) - TransactionInput.amount t
        /\ roundUpSavings (addTransaction now t s)
           == roundUpSavings s
              + match TransactionInput.type t with
                | expense =>
                    Math_ceil (TransactionInput.amount t)
                    - TransactionInput.amount t
                | income => 0
                end
        /\ (roundUpSavings (addTransaction now t s) = roundUpSavings s
            \/ TransactionInput.type t = expense
               /\ roundUpSavings s < roundUpSavings (addTransaction now t s)))
  /\ (forall id t s,
        roundUpSavings (editTransaction id t s) = roundUpSavings s)
  /\ (forall id s,
        roundUpSavings (deleteTransaction id s) = roundUpSavings s)
  /\ (forall now g s,
        roundUpSavings (addSavingsGoal now g s) = roundUpSavings s)
  /\ (forall c l s,
        roundUpSavings (updateBudget c l s) = roundUpSavings s).
Proof.
  split; [| split; [| split; [| split; [| split]]]].
  - intro cs. induction cs as [| c cs IH]; intro s.
    + simpl. lra.
    + unfold run in *. simpl.
      apply Qle_trans with (roundUpSavings (call c s)).
      * apply call_roundUp_monotone.
      * apply IH.
  - intros now t s. split; [apply Math_ceil_ge |].
    split; [apply addTransaction_roundUp |].
    unfold addTransaction. cbn [roundUpSavings].
    destruct (TransactionInput.type t); [now left |].
    destruct (Qgtb _ 0) eqn:E; [| now left].
    right. split; [reflexivity |].
    apply Qgtb_true in E. lra.
  - apply editTransaction_roundUp.
  - apply deleteTransaction_roundUp.
  - reflexivity.
  - reflexivity.
Qed.

(** Adding an expense of 99.40 raises the accumulator by 0.60. *)
Example roundUp_lunch :
  roundUpSavings (addTransaction 1700000000000 lunch initialState)
  == roundUpSavings initialState + 0.60.
Proof. reflexivity. Qed.

(** ** C8: unknown identifiers *)

Lemma findTransaction_absent i ts :
  ~ In i (map Transaction.id ts) -> findTransaction i ts = None.
Proof.
  unfold findTransaction.
  induction ts as [| t ts IH]; simpl; intro H; [reflexivity |].
  destruct (String.eqb (Transaction.id t) i) eqn:E.
  - apply String.eqb_eq in E. exfalso. apply H. now left.
  - apply IH. intro Hin. apply H. now right.
Qed.

(** C8: [editTransaction] and [deleteTransaction] called with an
    identifier that no stored transaction carries return the state they
    were given: the store, the budgets, the goals and the round-up
    accumulator are unchanged, and the call ends normally. *)
Theorem unknown_id_noop
    (id : string) (t : TransactionInput.t) (s : FinanceState) :
  ~ In id (ids s) ->
  editTransaction id t s = s /\ deleteTransaction id s = s.
Proof.
  intro H. apply findTransaction_absent in H.
  unfold editTransaction, deleteTransaction. rewrite H. now split.
Qed.

Lemma unknown_id_noop_witness :
  editTransaction "42" lunch initialState = initialState
  /\ deleteTransaction "42" initialState = initialState.
Proof.
  apply (unknown_id_noop "42" lunch initialState).
  simpl. intros [H | [H | [H | []]]]; discriminate H.
Defined.

(** ** C10: [updateBudget] *)

Lemma setLimit_no_match c l bs :
  findBudget c bs = None -> map (setLimit c l) bs = bs.
Proof.
  unfold findBudget.
  induction bs as [| b bs IH]; simpl; intro H; [reflexivity |].
  destruct (String.eqb (Budget.category b) c) eqn:E; [discriminate H |].
  unfold setLimit at 1. rewrite E. f_equal. now apply IH.
Qed.

(** C10: [updateBudget(category, limit)] leaves the transactions, the
    goals and the round-up accumulator as they are; every budget keeps
    its place, its category and its [spent]; the limit of a budget becomes
    [limit] if its category is [category] and is kept otherwise.  When no
    budget has that category the state is returned unchanged, so no entry
    is created. *)
Theorem updateBudget_frame (category : string) (limit : Q)
    (s : FinanceState) :
  let s' := updateBudget category limit s in
  transactions s' = transactions s
  /\ savings s' = savings s
  /\ roundUpSavings s' = roundUpSavings s
  /\ Forall2
       (fun b b' =>
          Budget.category b' = Budget.category b
          /\ Budget.spent b' = Budget.spent b
          /\ Budget.limit b'
             = if String.eqb (Budget.category b) category then limit
               else Budget.limit b)
       (budgets s) (budgets s')
  /\ length (budgets s') = length (budgets s)
  /\ (findBudget category (budgets s) = None -> s' = s).
Proof.
  cbv zeta. unfold updateBudget. cbn [transactions savings budgets
    roundUpSavings].
  split; [reflexivity |]. split; [reflexivity |]. split; [reflexivity |].
  split; [| split].
  - apply Forall2_map_self. intros b _. unfold setLimit.
    destruct (String.eqb (Budget.category b) category); simpl; auto.
  - apply length_map.
  - intro H. rewrite (setLimit_no_match _ _ _ H). now destruct s.
Qed.

Lemma updateBudget_frame_witness :
  updateBudget "Travel" 100 initialState = initialState.
Proof.
  apply (updateBudget_frame "Travel" 100 initialState). reflexivity.
Defined.

(** ** C6: the regret risk *)

Lemma jsdiv_nonzero n d : ~ d == 0 -> jsdiv n d = Num (n / d).
Proof.
  intro H. unfold jsdiv. destruct (Qeq_bool d 0) eqn:E; [| reflexivity].
  apply Qeq_bool_iff in E. contradiction.
Qed.

Lemma jsnum_min_le_1 x q : jsnum_min x 1 = Num q -> q <= 1.
Proof.
  destruct x as [p | | |]; simpl; intro H; try discriminate H.
  - injection H as <-. apply Math_min_le_r.
  - injection H as <-. lra.
Qed.

Lemma Qdiv_nonneg n d : 0 <= n -> 0 < d -> 0 <= n / d.
Proof.
  intros Hn Hd. unfold Qdiv. apply Qmult_le_0_compat; [exact Hn |].
  apply Qlt_le_weak. now apply Qinv_lt_0_compat.
Qed.

(** C6, as stated, fails for a negative amount: on the initial state
    [checkRegretRisk(-10000, 'Food')] is [(2500 - 10000) / 5000 = -1.5]. *)
Lemma regret_risk_below_zero :
  (exists q,
     Regret.risk (checkRegretRisk 0 (-10000) "Food" initialState) = Num q
     /\ q == -1.5)
  /\ ~ in_unit_interval
         (Regret.risk (checkRegretRisk 0 (-10000) "Food" initialState)).
Proof.
  split.
  - eexists. split; reflexivity.
  - vm_compute. intros [H _]. now apply H.
Qed.

(** C6 (amended): the risk [checkRegretRisk] returns is never a number
    above 1, whatever the amount.  When a budget exists for the category,
    its limit is positive and the stored expenses of the category plus
    the amount are not negative, the risk lies in [[0, 1]].  When no
    budget exists for the category the risk is 0.5. *)
Theorem regret_risk_bounds
    (random amount : Q) (category : string) (s : FinanceState) :
  let r := Regret.risk (checkRegretRisk random amount category s) in
  (forall q, r = Num q -> q <= 1)
  /\ r <> PosInf
  /\ (forall b,
        findBudget category (budgets s) = Some b ->
        0 < Budget.limit b ->
        0 <= categoryExpenses category (transactions s) + amount ->
        in_unit_interval r)
  /\ (findBudget category (budgets s) = None -> r = Num 0.5).
Proof.
  cbv zeta. unfold checkRegretRisk. cbn [Regret.risk].
  split; [| split; [| split]].
  - intros q. apply jsnum_min_le_1.
  - destruct (match findBudget category (budgets s) with
              | Some b => _
              | None => _
              end); discriminate.
  - intros b Hb Hl Hn. rewrite Hb.
    rewrite jsdiv_nonzero by lra. simpl. split.
    + apply Math_min_glb; [| lra]. now apply Qdiv_nonneg.
    + apply Math_min_le_r.
  - intro Hb. rewrite Hb. reflexivity.
Qed.

(** [checkRegretRisk(2600, 'Food')] on the initial state: the risk is 1 and
    the message is one of the first four. *)
Lemma regret_risk_bounds_witness :
  in_unit_interval
    (Regret.risk (checkRegretRisk 0.3 2600 "Food" initialState)).
Proof.
  apply (regret_risk_bounds 0.3 2600 "Food" initialState)
    with (b := Budget.mk "Food" 5000 2500).
  - reflexivity.
  - reflexivity.
  - discriminate.
Defined.

Example regret_risk_food :
  checkRegretRisk 0.3 2600 "Food" initialState
  = {| Regret.risk := Num 1;
       Regret.message :=
         Some "Remember your savings goals. Is this purchase aligned?"%string
    |}.
Proof. reflexivity. Qed.

(** ** C7: affordability *)

Lemma suggestions_NoDup : NoDup suggestions.
Proof.
  unfold suggestions.
  repeat constructor; simpl; intuition discriminate.
Qed.

Lemma randomIndex_range (random : Q) (n : Z) :
  (0 < n)%Z -> 0 <= random -> random < 1 ->
  (0 <= randomIndex random n < n)%Z.
Proof.
  intros Hn H0 H1. unfold randomIndex, Math_floor.
  assert (Hq : 0 < inject_Z n).
  { change 0 with (inject_Z 0). now rewrite <- Zlt_Qlt. }
  split.
  - rewrite <- (Qfloor_Z 0).
    apply Qfloor_resp_le. change (inject_Z 0) with 0. nra.
  - rewrite Zlt_Qlt.
    apply Qle_lt_trans with (random * inject_Z n).
    + apply Qfloor_le.
    + nra.
Qed.

Lemma arrayGet_in_range {A : Type} (arr : list A) (i : Z) :
  (0 <= i < Z.of_nat (length arr))%Z ->
  exists x, arrayGet arr i = Some x /\ In x arr.
Proof.
  intros [Hlo Hhi]. unfold arrayGet.
  destruct (i <? 0)%Z eqn:E; [apply Z.ltb_lt in E; lia |].
  destruct (nth_error arr (Z.to_nat i)) as [x |] eqn:Hn.
  - exists x. split; [reflexivity |]. eapply nth_error_In. exact Hn.
  - apply nth_error_None in Hn. lia.
Qed.

(** C7, as stated, fails on the size of the catalog: the array the
    refusal is drawn from has five distinct messages, the fifth is
    returned for a draw of 0.9, and no list of four messages holds every
    suggestion a refusal can carry. *)
Lemma canAfford_fifth_suggestion :
  canAfford 0.9 10000 initialState
  = {| Afford.canAfford := false;
       Afford.suggestion :=
         Some "Skip one dining out to make room for this purchase"%string |}
  /\ length suggestions = 5%nat
  /\ NoDup suggestions
  /\ ~ exists catalog : list string,
         length catalog = 4%nat
         /\ forall random, 0 <= random -> random < 1 ->
              exists m,
                Afford.suggestion (canAfford random 10000 initialState)
                = Some m
                /\ In m catalog.
Proof.
  split; [reflexivity |]. split; [reflexivity |].
  split; [exact suggestions_NoDup |].
  intros [catalog [Hlen Hall]].
  assert (Hincl : incl suggestions catalog).
  { intros m Hm.
    assert (Hdraw : forall random m',
              0 <= random -> random < 1 ->
              Afford.suggestion (canAfford random 10000 initialState)
              = Some m' -> In m' catalog).
    { intros random m' H0 H1 Hs.
      destruct (Hall random H0 H1) as [m'' [Hs' Hin]]. congruence. }
    simpl in Hm.
    destruct Hm as [<- | [<- | [<- | [<- | [<- | []]]]]].
    - apply (Hdraw 0); [lra | lra | reflexivity].
    - apply (Hdraw 0.2); [lra | lra | reflexivity].
    - apply (Hdraw 0.4); [lra | lra | reflexivity].
    - apply (Hdraw 0.6); [lra | lra | reflexivity].
    - apply (Hdraw 0.8); [lra | lra | reflexivity]. }
  pose proof (NoDup_incl_length suggestions_NoDup Hincl) as Hle.
  rewrite Hlen in Hle. simpl in Hle. lia.
Qed.

(** C7 (amended): [canAfford(amount)] answers [true] exactly when the sum
    of the stored incomes minus the sum of the stored expenses is at least
    [amount].  A positive answer carries the one affirming message; a
    negative answer carries, for a draw in [[0, 1)], a member of the
    catalog [suggestions], which has five distinct messages. *)
Theorem canAfford_spec (random amount : Q) (s : FinanceState) :
  let r := canAfford random amount s in
  (Afford.canAfford r = true
   <-> amount
       <= sumAmounts (filter isIncome (transactions s))
          - sumAmounts (filter isExpense (transactions s)))
  /\ (Afford.canAfford r = true -> Afford.suggestion r = Some affirmation)
  /\ (Afford.canAfford r = false ->
      0 <= random -> random < 1 ->
      exists m, Afford.suggestion r = Some m /\ In m suggestions)
  /\ length suggestions = 5%nat
  /\ NoDup suggestions.
Proof.
  cbv zeta. unfold canAfford. cbn [Afford.canAfford Afford.suggestion].
  split; [| split; [| split; [| split]]].
  - unfold Qgeb, availableBalance. apply Qle_bool_iff.
  - intros ->. reflexivity.
  - intros -> H0 H1.
    apply arrayGet_in_range.
    apply randomIndex_range; [reflexivity | exact H0 | exact H1].
  - reflexivity.
  - exact suggestions_NoDup.
Qed.

Lemma canAfford_spec_witness :
  exists m,
    Afford.suggestion (canAfford 0.5 10000 initialState) = Some m
    /\ In m suggestions.
Proof.
  apply (canAfford_spec 0.5 10000 initialState).
  - reflexivity.
  - discriminate.
  - reflexivity.
Defined.

(** ** C9: identifiers *)

Lemma toString_parses (n : Z) :
  NilZero.int_of_string (toString n) = Some (Z.to_int n).
Proof.
  unfold toString. apply NilZero.isi; intro H;
    pose proof (DecimalZ.of_to n) as Hn; rewrite H in Hn;
    simpl in Hn; subst n; discriminate H.
Qed.

Lemma toString_inj (m n : Z) : toString m = toString n -> m = n.
Proof.
  intro H. apply DecimalZ.to_int_inj.
  pose proof (toString_parses m) as Hm.
  pose proof (toString_parses n) as Hn.
  rewrite H in Hm. congruence.
Qed.

(** The record is put in front of the store, and the identifiers stay
    distinct as long as the string of the clock reading is not yet one of
    them. *)
Lemma addTransaction_prepends now t s :
  transactions (addTransaction now t s)
  = withId (toString now) t :: transactions s.
Proof. reflexivity. Qed.

Lemma addTransaction_fresh_clock now t s :
  ~ In (toString now) (ids s) -> NoDup (ids s) ->
  NoDup (ids (addTransaction now t s)).
Proof.
  intros Hfresh Hnd. unfold ids. rewrite addTransaction_prepends.
  simpl. now constructor.
Qed.

(** A clock reading later than the readings behind all stored identifiers
    gives an identifier that is not in the store. *)
Lemma addTransaction_later_clock now s :
  Forall (fun i => exists m, i = toString m /\ (m < now)%Z) (ids s) ->
  ~ In (toString now) (ids s).
Proof.
  intros Hall Hin. rewrite Forall_forall in Hall.
  destruct (Hall _ Hin) as [m [Heq Hlt]].
  apply toString_inj in Heq. lia.
Qed.

(** C9: the identifier is the decimal string of the clock reading, so two
    [addTransaction] calls that read the same clock value store two
    records under one identifier: the second call assigns an identifier
    that is already in the store.  Each record is put in front of the
    store. *)
Theorem same_clock_same_id
    (now : Z) (t1 t2 : TransactionInput.t) (s : FinanceState) :
  let s1 := addTransaction now t1 s in
  let s2 := addTransaction now t2 s1 in
  transactions s2
  = withId (toString now) t2 :: withId (toString now) t1 :: transactions s
  /\ In (toString now) (ids s1)
  /\ ~ NoDup (ids s2).
Proof.
  cbv zeta. split; [reflexivity |]. split.
  - unfold ids. rewrite addTransaction_prepends. now left.
  - unfold ids. rewrite !addTransaction_prepends. simpl.
    intro H. inversion H as [| x l Hnotin _]. subst.
    apply Hnotin. now left.
Qed.

(** What the shared identifier leads to: after two additions of [lunch]
    in the same millisecond, one [deleteTransaction] removes both records
    from the store and takes one amount off [Food]'s [spent]. *)
Example same_clock_delete :
  let s2 := addTransaction 1700000000000 lunch
              (addTransaction 1700000000000 lunch initialState) in
  let s3 := deleteTransaction (toString 1700000000000) s2 in
  ids s2 = ["1700000000000"; "1700000000000"; "1"; "2"; "3"]%string
  /\ transactions s3 = transactions initialState
  /\ exists x, spentOf "Food" s3 = Some x /\ x == 2500 + 99.40.
Proof.
  cbv zeta. split; [reflexivity |]. split; [reflexivity |].
  eexists. split; reflexivity.
Qed.

(** * Further properties of the engine *)

(** ** The store under [deleteTransaction] and [editTransaction] *)

Lemma findTransaction_none_iff i ts :
  findTransaction i ts = None <-> ~ In i (map Transaction.id ts).
Proof.
  split; [| apply findTransaction_absent].
  unfold findTransaction. intros H Hin.
  apply in_map_iff in Hin. destruct Hin as [t [Hid Ht]].
  pose proof (find_none _ _ H t Ht) as Hf. simpl in Hf.
  rewrite Hid, String.eqb_refl in Hf. discriminate Hf.
Qed.

Lemma findTransaction_some i ts old :
  findTransaction i ts = Some old -> In old ts /\ Transaction.id old = i.
Proof.
  unfold findTransaction. intro H. apply find_some in H.
  destruct H as [Hin Heq]. split; [exact Hin | now apply String.eqb_eq].
Qed.

Lemma ids_after_delete i ts :
  ~ In i (map Transaction.id
            (filter (fun t => negb (String.eqb (Transaction.id t) i)) ts)).
Proof.
  intro H. apply in_map_iff in H. destruct H as [t [Hid Ht]].
  apply filter_In in Ht. destruct Ht as [_ Hneq].
  rewrite Hid, String.eqb_refl in Hneq. discriminate Hneq.
Qed.

(** After [deleteTransaction(id)] no stored transaction carries [id];
    the store keeps exactly the transactions with another identifier; a
    second deletion of the same identifier changes nothing. *)
Theorem deleteTransaction_removes (id : string) (s : FinanceState) :
  ~ In id (ids (deleteTransaction id s))
  /\ (forall t,
        In t (transactions (deleteTransaction id s))
        <-> In t (transactions s) /\ Transaction.id t <> id)
  /\ deleteTransaction id (deleteTransaction id s) = deleteTransaction id s.
Proof.
  assert (Hgone : ~ In id (ids (deleteTransaction id s))).
  { unfold deleteTransaction, ids.
    destruct (findTransaction id (transactions s)) eqn:E.
    - cbn [transactions]. apply ids_after_delete.
    - now apply findTransaction_none_iff. }
  split; [exact Hgone |]. split.
  - intro t. unfold deleteTransaction.
    destruct (findTransaction id (transactions s)) eqn:E.
    + cbn [transactions]. rewrite filter_In, negb_true_iff.
      split; intros [Hin Hneq]; (split; [exact Hin |]).
      * intro Heq. rewrite Heq, String.eqb_refl in Hneq. discriminate.
      * now apply String.eqb_neq.
    + split.
      * intro Hin. split; [exact Hin |]. intro Heq.
        apply findTransaction_none_iff in E. apply E.
        apply in_map_iff. now exists t.
      * now intros [Hin _].
  - apply findTransaction_absent in Hgone.
    unfold deleteTransaction at 1. now rewrite Hgone.
Qed.

Lemma ids_after_edit i new ts :
  map Transaction.id
    (map (fun t => if String.eqb (Transaction.id t) i
                   then withId i new else t) ts)
  = map Transaction.id ts.
Proof.
  rewrite map_map. apply map_ext. intro t.
  destruct (String.eqb (Transaction.id t) i) eqn:E; [| reflexivity].
  apply String.eqb_eq in E. now rewrite E.
Qed.

Lemma find_after_edit i new ts :
  In i (map Transaction.id ts) ->
  findTransaction i
    (map (fun t => if String.eqb (Transaction.id t) i
                   then withId i new else t) ts)
  = Some (withId i new).
Proof.
  unfold findTransaction.
  induction ts as [| u ts IH]; simpl; intro Hin; [contradiction |].
  destruct (String.eqb (Transaction.id u) i) eqn:E.
  - simpl. now rewrite String.eqb_refl.
  - rewrite E. apply IH. destruct Hin as [Heq | Hin]; [| exact Hin].
    rewrite Heq, String.eqb_refl in E. discriminate E.
Qed.

(** [editTransaction(id, t)] keeps the identifiers of the store and
    their order; every stored transaction with identifier [id] becomes
    [t] with that identifier and every other one is kept; when [id] was
    in the store, it is [t] that is found under [id] afterwards. *)
Theorem editTransaction_store
    (id : string) (t : TransactionInput.t) (s : FinanceState) :
  ids (editTransaction id t s) = ids s
  /\ Forall2
       (fun u u' =>
          u' = if String.eqb (Transaction.id u) id then withId id t else u)
       (transactions s) (transactions (editTransaction id t s))
  /\ (In id (ids s) ->
      findTransaction id (transactions (editTransaction id t s))
      = Some (withId id t)).
Proof.
  unfold editTransaction, ids.
  destruct (findTransaction id (transactions s)) as [old |] eqn:E.
  - cbn [transactions]. split; [apply ids_after_edit |]. split.
    + apply Forall2_map_self. intros u _. reflexivity.
    + apply find_after_edit.
  - split; [reflexivity |]. split.
    + apply Forall2_same. intros u Hu.
      destruct (String.eqb (Transaction.id u) id) eqn:Eu; [| reflexivity].
      apply String.eqb_eq in Eu.
      apply findTransaction_none_iff in E. exfalso. apply E.
      apply in_map_iff. now exists u.
    + intro Hin. apply findTransaction_none_iff in E. contradiction.
Qed.

Lemma editTransaction_store_witness :
  findTransaction "1"
    (transactions (editTransaction "1" groceriesAsShopping initialState))
  = Some (withId "1" groceriesAsShopping).
Proof.
  apply (editTransaction_store "1" groceriesAsShopping initialState).
  simpl. now left.
Defined.

(** ** The budgets follow the store *)

Lemma filter_absent i ts :
  ~ In i (map Transaction.id ts) ->
  filter (fun t => negb (String.eqb (Transaction.id t) i)) ts = ts.
Proof.
  induction ts as [| t ts IH]; simpl; intro H; [reflexivity |].
  destruct (String.eqb (Transaction.id t) i) eqn:E.
  - apply String.eqb_eq in E. exfalso. apply H. now left.
  - simpl. f_equal. apply IH. intro Hin. apply H. now right.
Qed.

Lemma replace_absent i r ts :
  ~ In i (map Transaction.id ts) ->
  map (fun t => if String.eqb (Transaction.id t) i then r else t) ts = ts.
Proof.
  induction ts as [| t ts IH]; simpl; intro H; [reflexivity |].
  destruct (String.eqb (Transaction.id t) i) eqn:E.
  - apply String.eqb_eq in E. exfalso. apply H. now left.
  - f_equal. apply IH. intro Hin. apply H. now right.
Qed.

Lemma categoryExpenses_delete c i ts old :
  NoDup (map Transaction.id ts) ->
  findTransaction i ts = Some old ->
  categoryExpenses c
    (filter (fun t => negb (String.eqb (Transaction.id t) i)) ts)
  == categoryExpenses c ts - share c old.
Proof.
  unfold findTransaction.
  induction ts as [| t ts IH]; simpl; intros Hnd Hfind; [discriminate |].
  inversion Hnd as [| x l Hnotin Hnd']. subst.
  destruct (String.eqb (Transaction.id t) i) eqn:E.
  - injection Hfind as <-. apply String.eqb_eq in E. subst i.
    simpl. rewrite (filter_absent _ _ Hnotin).
    rewrite categoryExpenses_cons. unfold share. lra.
  - simpl. rewrite !categoryExpenses_cons, (IH Hnd' Hfind). lra.
Qed.

Lemma categoryExpenses_edit c i r ts old :
  NoDup (map Transaction.id ts) ->
  findTransaction i ts = Some old ->
  categoryExpenses c
    (map (fun t => if String.eqb (Transaction.id t) i then r else t) ts)
  == categoryExpenses c ts - share c old + share c r.
Proof.
  unfold findTransaction.
  induction ts as [| t ts IH]; simpl; intros Hnd Hfind; [discriminate |].
  inversion Hnd as [| x l Hnotin Hnd']. subst.
  destruct (String.eqb (Transaction.id t) i) eqn:E.
  - injection Hfind as <-. apply String.eqb_eq in E. subst i.
    rewrite (replace_absent _ _ _ Hnotin).
    rewrite !categoryExpenses_cons. unfold share. lra.
  - rewrite !categoryExpenses_cons, (IH Hnd' Hfind). lra.
Qed.

Lemma sumAmounts_nonneg ts :
  Forall (fun t => 0 <= Transaction.amount t) ts -> 0 <= sumAmounts ts.
Proof.
  induction 1 as [| t ts Ht _ IH].
  - unfold sumAmounts. simpl. lra.
  - rewrite sumAmounts_cons. lra.
Qed.

Lemma Forall_filter_kept {A : Type} (P : A -> Prop) (p : A -> bool)
    (l : list A) :
  Forall P l -> Forall P (filter p l).
Proof.
  intro H. apply Forall_forall. intros x Hx.
  apply filter_In in Hx. rewrite Forall_forall in H. now apply H.
Qed.

Lemma categoryExpenses_nonneg c ts :
  Forall (fun t => 0 <= Transaction.amount t) ts ->
  0 <= categoryExpenses c ts.
Proof.
  intro H. unfold categoryExpenses.
  apply sumAmounts_nonneg. now apply Forall_filter_kept.
Qed.

Lemma NoDup_ids_filter (p : Transaction.t -> bool) ts :
  NoDup (map Transaction.id ts) ->
  NoDup (map Transaction.id (filter p ts)).
Proof.
  induction ts as [| t ts IH]; simpl; intro H; [constructor |].
  inversion H as [| x l Hnotin Hnd]. subst.
  destruct (p t); [| now apply IH].
  simpl. constructor; [| now apply IH].
  intro Hin. apply Hnotin.
  apply in_map_iff in Hin. destruct Hin as [u [Hid Hu]].
  apply filter_In in Hu. apply in_map_iff. exists u. tauto.
Qed.

Lemma share_withId c i t :
  share c (withId i t)
  = match TransactionInput.type t with
    | expense =>
        if String.eqb (TransactionInput.category t) c
        then TransactionInput.amount t else 0
    | income => 0
    end.
Proof.
  unfold share, isExpenseIn, isExpense. simpl.
  destruct (TransactionInput.type t); reflexivity.
Qed.

Lemma share_nonneg c t : 0 <= Transaction.amount t -> 0 <= share c t.
Proof.
  intro H. unfold share. destruct (isExpenseIn c t); lra.
Qed.

(** The spent of a budget after the reversal of [old], when the budget
    covers the stored expenses of its category and [old] is one of them. *)
Lemma removeSpent_share old b rest :
  Transaction.type old = expense ->
  0 <= rest ->
  rest + share (Budget.category b) old <= Budget.spent b ->
  Budget.spent (removeSpent (Transaction.category old)
                  (Transaction.amount old) b)
  == Budget.spent b - share (Budget.category b) old.
Proof.
  intros Hty Hrest Hcover. rewrite removeSpent_spent.
  unfold share, isExpenseIn, isExpense in *. rewrite Hty in *. simpl in *.
  rewrite (String.eqb_sym (Transaction.category old)) in *.
  destruct (String.eqb (Budget.category b) (Transaction.category old)).
  - apply Math_max_0_id. lra.
  - lra.
Qed.

Lemma share_income c old : Transaction.type old = income -> share c old = 0.
Proof.
  intro H. unfold share, isExpenseIn, isExpense. now rewrite H.
Qed.

Lemma addSpent_share i t b :
  TransactionInput.type t = expense ->
  Budget.spent (addSpent (TransactionInput.category t)
                  (TransactionInput.amount t) b)
  == Budget.spent b + share (Budget.category b) (withId i t).
Proof.
  intro Hty. rewrite addSpent_spent, share_withId, Hty.
  rewrite (String.eqb_sym (Budget.category b)).
  destruct (String.eqb _ (Budget.category b)); lra.
Qed.

Lemma reverseOld_category old b :
  Budget.category (reverseOld old b) = Budget.category b.
Proof.
  unfold reverseOld. destruct (Transaction.type old); [reflexivity |].
  apply removeSpent_category.
Qed.

Lemma applyNew_category t b :
  Budget.category (applyNew t b) = Budget.category b.
Proof.
  unfold applyNew. destruct (TransactionInput.type t); [reflexivity |].
  apply addSpent_category.
Qed.

Lemma reverseOld_spent old b rest :
  0 <= rest ->
  rest + share (Budget.category b) old <= Budget.spent b ->
  Budget.spent (reverseOld old b)
  == Budget.spent b - share (Budget.category b) old.
Proof.
  intros Hrest Hcover. unfold reverseOld.
  destruct (Transaction.type old) eqn:E.
  - rewrite (share_income _ _ E). lra.
  - now apply removeSpent_share with (rest := rest).
Qed.

Lemma applyNew_spent i t b :
  Budget.spent (applyNew t b)
  == Budget.spent b + share (Budget.category b) (withId i t).
Proof.
  unfold applyNew. destruct (TransactionInput.type t) eqn:E.
  - rewrite share_withId, E. lra.
  - now apply addSpent_share.
Qed.

Lemma addTransaction_patch now t s :
  budgets (addTransaction now t s) = map (applyNew t) (budgets s).
Proof.
  unfold addTransaction, applyNew. cbn [budgets].
  destruct (TransactionInput.type t); [| reflexivity].
  now rewrite map_id.
Qed.

Lemma deleteTransaction_patch i s old :
  findTransaction i (transactions s) = Some old ->
  budgets (deleteTransaction i s) = map (reverseOld old) (budgets s).
Proof.
  intro H. unfold deleteTransaction, reverseOld. rewrite H. cbn [budgets].
  destruct (Transaction.type old); [| reflexivity].
  now rewrite map_id.
Qed.

Lemma editTransaction_patch i t s old :
  findTransaction i (transactions s) = Some old ->
  budgets (editTransaction i t s)
  = map (fun b => applyNew t (reverseOld old b)) (budgets s).
Proof.
  intro H. rewrite (editTransaction_budgets _ _ _ _ H). cbv zeta.
  unfold applyNew, reverseOld.
  destruct (Transaction.type old), (TransactionInput.type t);
    rewrite ?map_map; try reflexivity; now rewrite map_id.
Qed.

(** From a patch that keeps categories and drifts to the two facts about
    the budgets of the next state. *)
Lemma patched_budgets s s' (f : Budget.t -> Budget.t) :
  budgets s' = map f (budgets s) ->
  spentCoversStore s ->
  (forall b, 0 <= drift s b ->
             Budget.category (f b) = Budget.category b
             /\ drift s' (f b) == drift s b) ->
  spentCoversStore s'
  /\ Forall2
       (fun b b' =>
          Budget.category b' = Budget.category b
          /\ drift s' b' == drift s b)
       (budgets s) (budgets s').
Proof.
  unfold spentCoversStore. intros Hb Hcov Hf. rewrite Hb.
  rewrite Forall_forall in Hcov. split.
  - apply Forall_forall. intros b' Hb'.
    apply in_map_iff in Hb'. destruct Hb' as [b [<- Hin]].
    destruct (Hf b (Hcov b Hin)) as [_ Hd]. rewrite Hd. now apply Hcov.
  - apply Forall2_map_self. intros b Hin. now apply Hf, Hcov.
Qed.

Lemma deleteTransaction_found i s old :
  findTransaction i (transactions s) = Some old ->
  transactions (deleteTransaction i s)
  = filter (fun t => negb (String.eqb (Transaction.id t) i))
      (transactions s).
Proof.
  intro H. unfold deleteTransaction. now rewrite H.
Qed.

Lemma editTransaction_found i t s old :
  findTransaction i (transactions s) = Some old ->
  transactions (editTransaction i t s)
  = map (fun u => if String.eqb (Transaction.id u) i then withId i t else u)
      (transactions s).
Proof.
  intro H. unfold editTransaction. now rewrite H.
Qed.

Lemma unchanged_consistent s s' :
  transactions s' = transactions s ->
  budgets s' = budgets s ->
  consistent s ->
  consistent s'
  /\ Forall2
       (fun b b' =>
          Budget.category b' = Budget.category b
          /\ drift s' b' == drift s b)
       (budgets s) (budgets s').
Proof.
  intros Ht Hb [Hnd [Ham Hcov]].
  assert (Hdrift : forall b, drift s' b = drift s b).
  { intro b. unfold drift. now rewrite Ht. }
  split.
  - unfold consistent, ids, amountsNonNegative, spentCoversStore.
    rewrite Ht, Hb. split; [exact Hnd |]. split; [exact Ham |].
    eapply Forall_impl; [| exact Hcov].
    intros b H. now rewrite Hdrift.
  - rewrite Hb. apply Forall2_same. intros b _.
    split; [reflexivity |]. now rewrite Hdrift.
Qed.

Lemma call_consistent c s :
  consistent s -> admissible c s ->
  consistent (call c s)
  /\ Forall2
       (fun b b' =>
          Budget.category b' = Budget.category b
          /\ drift (call c s) b' == drift s b)
       (budgets s) (budgets (call c s)).
Proof.
  intros Hs Hadm. pose proof Hs as [Hnd [Ham Hcov]].
  destruct c as [now t | i t | i | now g | cat l]; cbn [call].
  - (* addTransaction *)
    destruct Hadm as [Hfresh Hamount].
    destruct (patched_budgets s (addTransaction now t s) (applyNew t))
      as [Hcov' Hrel]; [apply addTransaction_patch | exact Hcov | |].
    + intros b _. split; [apply applyNew_category |].
      unfold drift. rewrite addTransaction_prepends, applyNew_category,
        (applyNew_spent (toString now)), categoryExpenses_cons.
      unfold share. lra.
    + split; [| exact Hrel].
      split; [now apply addTransaction_fresh_clock |].
      split; [| exact Hcov'].
      unfold amountsNonNegative. rewrite addTransaction_prepends.
      constructor; [exact Hamount | exact Ham].
  - (* editTransaction *)
    destruct (findTransaction i (transactions s)) as [old |] eqn:E.
    + simpl in Hadm.
      destruct (patched_budgets s (editTransaction i t s)
                  (fun b => applyNew t (reverseOld old b)))
        as [Hcov' Hrel];
        [now apply editTransaction_patch | exact Hcov | |].
      * intros b Hb.
        split; [now rewrite applyNew_category, reverseOld_category |].
        unfold drift in *.
        rewrite (editTransaction_found _ _ _ _ E), applyNew_category,
          reverseOld_category, (applyNew_spent i),
          (categoryExpenses_edit _ _ _ _ _ Hnd E), reverseOld_category.
        pose proof (categoryExpenses_delete (Budget.category b) _ _ _ Hnd E)
          as Hdel.
        pose proof (categoryExpenses_nonneg (Budget.category b) _
                      (Forall_filter_kept _
                         (fun u => negb (String.eqb (Transaction.id u) i))
                         _ Ham)) as Hrest.
        rewrite (reverseOld_spent old b
                   (categoryExpenses (Budget.category b)
                      (filter (fun u =>
                                 negb (String.eqb (Transaction.id u) i))
                         (transactions s)))); lra.
      * split; [| exact Hrel].
        split; [| split; [| exact Hcov']].
        -- unfold ids. rewrite (editTransaction_found _ _ _ _ E).
           now rewrite ids_after_edit.
        -- unfold amountsNonNegative.
           rewrite (editTransaction_found _ _ _ _ E).
           apply Forall_map_preserved; [| exact Ham].
           intros u Hu.
           now destruct (String.eqb (Transaction.id u) i).
    + unfold editTransaction. rewrite E.
      now apply unchanged_consistent.
  - (* deleteTransaction *)
    destruct (findTransaction i (transactions s)) as [old |] eqn:E.
    + destruct (patched_budgets s (deleteTransaction i s) (reverseOld old))
        as [Hcov' Hrel];
        [now apply deleteTransaction_patch | exact Hcov | |].
      * intros b Hb. split; [apply reverseOld_category |].
        unfold drift in *.
        rewrite (deleteTransaction_found _ _ _ E), reverseOld_category.
        pose proof (categoryExpenses_delete (Budget.category b) _ _ _ Hnd E)
          as Hdel.
        pose proof (categoryExpenses_nonneg (Budget.category b) _
                      (Forall_filter_kept _
                         (fun u => negb (String.eqb (Transaction.id u) i))
                         _ Ham)) as Hrest.
        rewrite (reverseOld_spent old b
                   (categoryExpenses (Budget.category b)
                      (filter (fun u =>
                                 negb (String.eqb (Transaction.id u) i))
                         (transactions s)))); lra.
      * split; [| exact Hrel].
        split; [| split; [| exact Hcov']].
        -- unfold ids. rewrite (deleteTransaction_found _ _ _ E).
           now apply NoDup_ids_filter.
        -- unfold amountsNonNegative.
           rewrite (deleteTransaction_found _ _ _ E).
           now apply Forall_filter_kept.
    + unfold deleteTransaction. rewrite E.
      now apply unchanged_consistent.
  - (* addSavingsGoal *)
    now apply unchanged_consistent.
  - (* updateBudget *)
    destruct (patched_budgets s (updateBudget cat l s) (setLimit cat l))
      as [Hcov' Hrel]; [reflexivity | exact Hcov | |].
    + intros b _. unfold drift, setLimit. cbn [transactions updateBudget].
      destruct (String.eqb (Budget.category b) cat); simpl;
        split; reflexivity.
    + split; [| exact Hrel].
      split; [exact Hnd |]. split; [exact Ham | exact Hcov'].
Qed.

Lemma Forall2_compose {A : Type} (R S T : A -> A -> Prop)
    (l1 l2 l3 : list A) :
  (forall a b c, R a b -> S b c -> T a c) ->
  Forall2 R l1 l2 -> Forall2 S l2 l3 -> Forall2 T l1 l3.
Proof.
  intros H H12. revert l3.
  induction H12 as [| a b l1 l2 Hab _ IH]; intros l3 H23;
    inversion H23; subst; constructor; eauto.
Qed.

Lemma run_consistent cs s :
  consistent s -> admissibleRun cs s ->
  consistent (run cs s)
  /\ Forall2
       (fun b b' =>
          Budget.category b' = Budget.category b
          /\ drift (run cs s) b' == drift s b)
       (budgets s) (budgets (run cs s)).
Proof.
  revert s. induction cs as [| c cs IH]; intros s Hs Hadm.
  - split; [exact Hs |]. apply Forall2_same. intros b _.
    split; reflexivity.
  - destruct Hadm as [Hc Hcs].
    destruct (call_consistent c s Hs Hc) as [Hs1 H1].
    destruct (IH (call c s) Hs1 Hcs) as [Hs2 H2].
    change (run (c :: cs) s) with (run cs (call c s)).
    split; [exact Hs2 |].
    eapply Forall2_compose; [| exact H1 | exact H2].
    intros a b d [Hc1 Hd1] [Hc2 Hd2]. split; [congruence |].
    rewrite Hd2. exact Hd1.
Qed.

(** Along a sequence of calls that bring non-negative amounts and whose
    additions read clock values not yet used as identifiers, started in a
    state with distinct identifiers, non-negative stored amounts and
    budgets whose [spent] covers the stored expenses of their category:
    these three facts hold again at the end, every budget keeps its
    category, and what its [spent] holds beyond the stored expenses of
    its category is the same at the end as at the start. *)
Theorem drift_constant (cs : list Call) (s : FinanceState) :
  consistent s ->
  admissibleRun cs s ->
  consistent (run cs s)
  /\ Forall2
       (fun b b' =>
          Budget.category b' = Budget.category b
          /\ Budget.spent b'
             - categoryExpenses (Budget.category b')
                 (transactions (run cs s))
             == Budget.spent b
                - categoryExpenses (Budget.category b) (transactions s))
       (budgets s) (budgets (run cs s)).
Proof.
  intros Hs Hadm. exact (run_consistent cs s Hs Hadm).
Qed.

Lemma initialState_consistent : consistent initialState.
Proof.
  split; [| split].
  - unfold ids. simpl. repeat constructor; simpl; intuition discriminate.
  - unfold amountsNonNegative. simpl. repeat constructor; discriminate.
  - unfold spentCoversStore. simpl.
    repeat constructor; vm_compute; discriminate.
Qed.

Lemma mixedCalls_admissible_initially :
  admissibleRun mixedCalls initialState.
Proof.
  vm_compute. intuition discriminate.
Qed.

Lemma drift_constant_witness :
  consistent (run mixedCalls initialState).
Proof.
  apply (drift_constant mixedCalls initialState).
  - exact initialState_consistent.
  - exact mixedCalls_admissible_initially.
Defined.

(** The invariant of the budgets: under the same conditions on the
    calls, a state with distinct identifiers and non-negative amounts in
    which every budget's [spent] equals the stored expenses of its
    category is led to a state where this equality holds again, whatever
    the mix of additions, edits and deletions. *)
Theorem tracking_preserved (cs : list Call) (s : FinanceState) :
  NoDup (ids s) ->
  amountsNonNegative s ->
  spentTracksStore s ->
  admissibleRun cs s ->
  spentTracksStore (run cs s).
Proof.
  intros Hnd Ham Htr Hadm.
  assert (Hs : consistent s).
  { split; [exact Hnd |]. split; [exact Ham |].
    apply Forall_forall. intros b Hb. unfold drift.
    rewrite (Htr b Hb). lra. }
  destruct (run_consistent cs s Hs Hadm) as [_ Hrel].
  intros b' Hb'.
  assert (Hex : exists b, In b (budgets s)
                          /\ Budget.category b' = Budget.category b
                          /\ drift (run cs s) b' == drift s b).
  { clear -Hrel Hb'.
    induction Hrel as [| a b l l' Hab _ IH]; [contradiction |].
    destruct Hb' as [<- | Hin].
    - exists a. split; [now left | exact Hab].
    - destruct (IH Hin) as [x [Hx Hr]]. exists x. split; [now right | exact Hr]. }
  destruct Hex as [b [Hb [_ Hd]]].
  unfold drift in Hd. rewrite (Htr b Hb) in Hd. lra.
Qed.

Lemma trackedState_admissible : admissibleRun mixedCalls trackedState.
Proof.
  vm_compute. intuition discriminate.
Qed.

Lemma tracking_preserved_witness :
  spentTracksStore (run mixedCalls trackedState).
Proof.
  apply (tracking_preserved mixedCalls trackedState).
  - unfold ids. simpl. repeat constructor; simpl; intuition discriminate.
  - unfold amountsNonNegative. simpl. repeat constructor; discriminate.
  - exact trackedState_tracks.
  - exact trackedState_admissible.
Defined.

(** ** What the mutators leave alone *)

Lemma setLimit_category c l b :
  Budget.category (setLimit c l b) = Budget.category b.
Proof. unfold setLimit. now destruct (String.eqb _ c). Qed.

Lemma call_budget_categories c s :
  map Budget.category (budgets (call c s))
  = map Budget.category (budgets s).
Proof.
  destruct c as [now t | i t | i | now g | cat l]; cbn [call].
  - rewrite addTransaction_patch, map_map. apply map_ext.
    intro b. apply applyNew_category.
  - destruct (findTransaction i (transactions s)) as [old |] eqn:E.
    + rewrite (editTransaction_patch _ _ _ _ E), map_map. apply map_ext.
      intro b. now rewrite applyNew_category, reverseOld_category.
    + unfold editTransaction. now rewrite E.
  - destruct (findTransaction i (transactions s)) as [old |] eqn:E.
    + rewrite (deleteTransaction_patch _ _ _ E), map_map. apply map_ext.
      intro b. apply reverseOld_category.
    + unfold deleteTransaction. now rewrite E.
  - reflexivity.
  - cbn [updateBudget budgets]. rewrite map_map. apply map_ext.
    intro b. apply setLimit_category.
Qed.

Lemma reverseOld_limit old b :
  Budget.limit (reverseOld old b) = Budget.limit b.
Proof.
  unfold reverseOld. destruct (Transaction.type old); [reflexivity |].
  apply removeSpent_limit.
Qed.

Lemma applyNew_limit t b :
  Budget.limit (applyNew t b) = Budget.limit b.
Proof.
  unfold applyNew. destruct (TransactionInput.type t); [reflexivity |].
  apply addSpent_limit.
Qed.

Lemma call_budget_limits c s :
  (forall cat l, c <> CallUpdateBudget cat l) ->
  map Budget.limit (budgets (call c s)) = map Budget.limit (budgets s).
Proof.
  intro Hc.
  destruct c as [now t | i t | i | now g | cat l]; cbn [call].
  - rewrite addTransaction_patch, map_map. apply map_ext.
    intro b. apply applyNew_limit.
  - destruct (findTransaction i (transactions s)) as [old |] eqn:E.
    + rewrite (editTransaction_patch _ _ _ _ E), map_map. apply map_ext.
      intro b. now rewrite applyNew_limit, reverseOld_limit.
    + unfold editTransaction. now rewrite E.
  - destruct (findTransaction i (transactions s)) as [old |] eqn:E.
    + rewrite (deleteTransaction_patch _ _ _ E), map_map. apply map_ext.
      intro b. apply reverseOld_limit.
    + unfold deleteTransaction. now rewrite E.
  - reflexivity.
  - exfalso. now apply (Hc cat l).
Qed.

(** No call creates, removes, renames or reorders a budget: the list of
    budget categories is the same after any sequence of calls; and the
    limits are the same as well when [updateBudget] is not among the
    calls. *)
Theorem budgets_shape_kept (cs : list Call) (s : FinanceState) :
  map Budget.category (budgets (run cs s)) = map Budget.category (budgets s)
  /\ (Forall (fun c => forall cat l, c <> CallUpdateBudget cat l) cs ->
      map Budget.limit (budgets (run cs s)) = map Budget.limit (budgets s)).
Proof.
  split.
  - revert s. induction cs as [| c cs IH]; intro s; [reflexivity |].
    change (run (c :: cs) s) with (run cs (call c s)).
    rewrite IH. apply call_budget_categories.
  - intro H. revert s. induction H as [| c cs Hc _ IH]; intro s;
      [reflexivity |].
    change (run (c :: cs) s) with (run cs (call c s)).
    rewrite IH. now apply call_budget_limits.
Qed.

Lemma budgets_shape_kept_witness :
  map Budget.limit (budgets (run outOfOrderCalls initialState))
  = map Budget.limit (budgets initialState).
Proof.
  apply (budgets_shape_kept outOfOrderCalls initialState).
  unfold outOfOrderCalls. repeat constructor; intros cat l H; discriminate H.
Defined.

Lemma call_savings c s :
  savings (call c s)
  = savings s
    ++ map (fun ng => goalWithId (toString (fst ng)) (snd ng))
         (goalCalls [c]).
Proof.
  destruct c as [now t | i t | i | now g | cat l]; cbn [call]; simpl;
    rewrite ?app_nil_r; try reflexivity.
  - unfold editTransaction.
    now destruct (findTransaction i (transactions s)).
  - unfold deleteTransaction.
    now destruct (findTransaction i (transactions s)).
Qed.

(** The savings goals after a sequence of calls are the goals before it
    followed by one goal per [addSavingsGoal] call, in call order, each
    with the string of its clock reading as identifier: goals are never
    removed, reordered or modified, and no other call touches them. *)
Theorem savings_only_appended (cs : list Call) (s : FinanceState) :
  savings (run cs s)
  = savings s
    ++ map (fun ng => goalWithId (toString (fst ng)) (snd ng))
         (goalCalls cs).
Proof.
  revert s. induction cs as [| c cs IH]; intro s.
  - simpl. now rewrite app_nil_r.
  - change (run (c :: cs) s) with (run cs (call c s)).
    rewrite IH, call_savings, <- app_assoc, <- map_app.
    unfold goalCalls. simpl. now rewrite app_nil_r.
Qed.

Lemma addSpent_no_match c a bs :
  findBudget c bs = None -> map (addSpent c a) bs = bs.
Proof.
  unfold findBudget.
  induction bs as [| b bs IH]; simpl; intro H; [reflexivity |].
  destruct (String.eqb (Budget.category b) c) eqn:E; [discriminate H |].
  unfold addSpent at 1. rewrite E. f_equal. now apply IH.
Qed.

Lemma removeSpent_no_match c a bs :
  findBudget c bs = None -> map (removeSpent c a) bs = bs.
Proof.
  unfold findBudget.
  induction bs as [| b bs IH]; simpl; intro H; [reflexivity |].
  destruct (String.eqb (Budget.category b) c) eqn:E; [discriminate H |].
  unfold removeSpent at 1. rewrite E. f_equal. now apply IH.
Qed.

(** Untracked categories: a transaction whose category has no budget is
    stored, edited and deleted without any change to the budgets. *)
Theorem untracked_category_ignored
    (now : Z) (id : string) (t : TransactionInput.t) (s : FinanceState) :
  findBudget (TransactionInput.category t) (budgets s) = None ->
  budgets (addTransaction now t s) = budgets s
  /\ (forall old,
        findTransaction id (transactions s) = Some old ->
        findBudget (Transaction.category old) (budgets s) = None ->
        budgets (deleteTransaction id s) = budgets s
        /\ budgets (editTransaction id t s) = budgets s).
Proof.
  intro Hnew. split.
  - unfold addTransaction. cbn [budgets].
    destruct (TransactionInput.type t); [reflexivity |].
    now apply addSpent_no_match.
  - intros old Hfind Hold.
    assert (H1 : match Transaction.type old with
                 | income => budgets s
                 | expense =>
                     map (removeSpent (Transaction.category old)
                            (Transaction.amount old)) (budgets s)
                 end = budgets s).
    { destruct (Transaction.type old); [reflexivity |].
      now apply removeSpent_no_match. }
    split.
    + unfold deleteTransaction. rewrite Hfind. cbn [budgets]. exact H1.
    + rewrite (editTransaction_budgets _ _ _ _ Hfind). cbv zeta.
      rewrite H1. destruct (TransactionInput.type t); [reflexivity |].
      now apply addSpent_no_match.
Qed.

Lemma untracked_category_ignored_witness :
  budgets (addTransaction 1700000000000 gift initialState)
  = budgets initialState
  /\ budgets (deleteTransaction "2" initialState) = budgets initialState
  /\ budgets (editTransaction "2" gift initialState) = budgets initialState.
Proof.
  destruct (untracked_category_ignored 1700000000000 "2" gift initialState
              eq_refl) as [Hadd Hrest].
  split; [exact Hadd |].
  exact (Hrest salary eq_refl eq_refl).
Defined.

(** ** Additions and the store *)

(** When the clock reading gives an identifier that is not in the store,
    [addTransaction] followed by [deleteTransaction] of that identifier
    gives back the store as it was, with the goals. *)
Theorem add_delete_store_roundtrip
    (now : Z) (t : TransactionInput.t) (s : FinanceState) :
  ~ In (toString now) (ids s) ->
  transactions (deleteTransaction (toString now) (addTransaction now t s))
  = transactions s
  /\ savings (deleteTransaction (toString now) (addTransaction now t s))
     = savings s.
Proof.
  intro Hfresh. unfold deleteTransaction, addTransaction.
  cbn [transactions]. rewrite findTransaction_head.
  cbn [transactions savings]. split; [| reflexivity].
  simpl. rewrite String.eqb_refl. simpl.
  now apply filter_absent.
Qed.

Lemma add_delete_store_roundtrip_witness :
  transactions (deleteTransaction (toString 1700000000000)
                  (addTransaction 1700000000000 lunch initialState))
  = transactions initialState.
Proof.
  apply (add_delete_store_roundtrip 1700000000000 lunch initialState).
  vm_compute. intuition discriminate.
Defined.

(** ** The balance and [canAfford] *)

(** The signed amount of a record: positive for an income, negative for
    an expense. *)
Lemma availableBalance_cons t ts :
  availableBalance (t :: ts)
  == availableBalance ts
     + match Transaction.type t with
       | income => Transaction.amount t
       | expense => - Transaction.amount t
       end.
Proof.
  unfold availableBalance, isIncome, isExpense. simpl.
  destruct (Transaction.type t); simpl; rewrite sumAmounts_cons; lra.
Qed.

(** [addTransaction] moves the balance [canAfford] works with by the
    amount added, up for an income and down for an expense; so an amount
    is affordable after an expense of [m] exactly when that amount plus
    [m] was affordable before, and after an income of [m] exactly when
    that amount minus [m] was. *)
Theorem canAfford_after_add
    (random random' amount : Q) (now : Z) (t : TransactionInput.t)
    (s : FinanceState) :
  let signed :=
    match TransactionInput.type t with
    | income => TransactionInput.amount t
    | expense => - TransactionInput.amount t
    end in
  availableBalance (transactions (addTransaction now t s))
  == availableBalance (transactions s) + signed
  /\ Afford.canAfford (canAfford random amount (addTransaction now t s))
     = Afford.canAfford (canAfford random' (amount - signed) s).
Proof.
  cbv zeta.
  assert (Hbal : availableBalance (transactions (addTransaction now t s))
                 == availableBalance (transactions s)
                    + match TransactionInput.type t with
                      | income => TransactionInput.amount t
                      | expense => - TransactionInput.amount t
                      end).
  { rewrite addTransaction_prepends, availableBalance_cons. reflexivity. }
  split; [exact Hbal |].
  unfold canAfford. cbn [Afford.canAfford]. unfold Qgeb.
  destruct (Qle_bool amount _) eqn:E1;
    destruct (Qle_bool (amount - _) _) eqn:E2; try reflexivity.
  - apply Qle_bool_iff in E1. rewrite Hbal in E1.
    assert (H : amount
                - match TransactionInput.type t with
                  | income => TransactionInput.amount t
                  | expense => - TransactionInput.amount t
                  end <= availableBalance (transactions s)) by lra.
    apply Qle_bool_iff in H. congruence.
  - apply Qle_bool_iff in E2.
    assert (H : amount
                <= availableBalance
                     (transactions (addTransaction now t s))).
    { rewrite Hbal. lra. }
    apply Qle_bool_iff in H. congruence.
Qed.

(** [canAfford] is monotone: what is affordable stays affordable for any
    smaller amount, whatever the random draws. *)
Theorem canAfford_smaller_amount
    (random random' amount amount' : Q) (s : FinanceState) :
  amount <= amount' ->
  Afford.canAfford (canAfford random' amount' s) = true ->
  Afford.canAfford (canAfford random amount s) = true.
Proof.
  unfold canAfford. cbn [Afford.canAfford]. unfold Qgeb.
  intros Hle H. apply Qle_bool_iff in H. apply Qle_bool_iff. lra.
Qed.

Lemma canAfford_smaller_amount_witness :
  Afford.canAfford (canAfford 0.1 1000 initialState) = true.
Proof.
  apply (canAfford_smaller_amount 0.1 0.7 1000 1700 initialState).
  - discriminate.
  - reflexivity.
Defined.

(** ** [getExpensesByCategory] *)

Lemma ownGet_ownSet_same k v acc : ownGet k (ownSet k v acc) = Some v.
Proof.
  unfold ownGet. induction acc as [| [k' v'] acc IH]; simpl.
  - now rewrite String.eqb_refl.
  - destruct (String.eqb k' k) eqn:E; simpl; rewrite E; [reflexivity |].
    exact IH.
Qed.

Lemma ownGet_ownSet_other k k' v acc :
  k' <> k -> ownGet k' (ownSet k v acc) = ownGet k' acc.
Proof.
  intro Hne. unfold ownGet. induction acc as [| [k0 v0] acc IH]; simpl.
  - apply String.eqb_neq in Hne. rewrite String.eqb_sym in Hne.
    now rewrite Hne.
  - destruct (String.eqb k0 k) eqn:E; simpl.
    + apply String.eqb_eq in E. subst k0.
      apply String.eqb_neq in Hne. rewrite String.eqb_sym in Hne.
      now rewrite Hne.
    + destruct (String.eqb k0 k'); [reflexivity | exact IH].
Qed.

Lemma ownGet_In k v acc : ownGet k acc = Some v -> In (k, v) acc.
Proof.
  unfold ownGet. intro H.
  destruct (find (fun kv => String.eqb (fst kv) k) acc) as [[k0 v0] |] eqn:E;
    [| discriminate H].
  injection H as <-. apply find_some in E. destruct E as [Hin Hk].
  apply String.eqb_eq in Hk. simpl in Hk. now subst k0.
Qed.

Lemma ownSet_In k v acc kv :
  In kv (ownSet k v acc) -> kv = (k, v) \/ In kv acc.
Proof.
  induction acc as [| [k0 v0] acc IH]; simpl.
  - intuition.
  - destruct (String.eqb k0 k) eqn:E; simpl.
    + apply String.eqb_eq in E. subst k0. intuition.
    + intros [H | H]; [tauto |]. apply IH in H. tauto.
Qed.

Lemma ownSet_keys k v acc k' :
  In k' (map fst (ownSet k v acc)) <-> In k' (map fst acc) \/ k' = k.
Proof.
  induction acc as [| [k0 v0] acc IH]; simpl.
  - intuition congruence.
  - destruct (String.eqb k0 k) eqn:E; simpl.
    + apply String.eqb_eq in E. subst k0. intuition congruence.
    + rewrite IH. tauto.
Qed.

Lemma ownSet_NoDup k v acc :
  NoDup (map fst acc) -> NoDup (map fst (ownSet k v acc)).
Proof.
  induction acc as [| [k0 v0] acc IH]; simpl; intro H.
  - repeat constructor. simpl. tauto.
  - inversion H as [| x l Hnotin Hnd]. subst.
    destruct (String.eqb k0 k) eqn:E; simpl.
    + now constructor.
    + constructor; [| now apply IH].
      rewrite ownSet_keys. intros [Hin | Heq]; [contradiction |].
      subst k0. rewrite String.eqb_refl in E. discriminate E.
Qed.

Lemma ownGet_none_keys k acc :
  ownGet k acc = None <-> ~ In k (map fst acc).
Proof.
  unfold ownGet. induction acc as [| [k0 v0] acc IH]; simpl.
  - tauto.
  - destruct (String.eqb k0 k) eqn:E; simpl.
    + apply String.eqb_eq in E. subst k0. split; [discriminate | tauto].
    + apply String.eqb_neq in E. rewrite IH. tauto.
Qed.

Lemma orZero_eq v : orZero v == v.
Proof.
  unfold orZero. destruct (Qeq_bool v 0) eqn:E; [| reflexivity].
  apply Qeq_bool_iff in E. now rewrite E.
Qed.

Lemma isPrototypeKey_proto k :
  isPrototypeKey k = false -> String.eqb k "__proto__" = false.
Proof.
  intro H. destruct (String.eqb k "__proto__") eqn:E; [| reflexivity].
  apply String.eqb_eq in E. subst k. discriminate H.
Qed.

Lemma objTotal_cons kv acc :
  objTotal (kv :: acc) == numberOf (snd kv) + objTotal acc.
Proof.
  unfold objTotal.
  rewrite (fold_sum_cons (fun sum kv => sum + numberOf (snd kv))).
  - lra.
  - intros; lra.
Qed.

Lemma objTotal_ownSet k v acc :
  objTotal (ownSet k v acc)
  == objTotal acc - numberAt k acc + numberOf v.
Proof.
  unfold numberAt, ownGet. induction acc as [| [k0 v0] acc IH].
  - unfold objTotal. simpl. lra.
  - simpl. destruct (String.eqb k0 k) eqn:E; cbn [option_map snd].
    + rewrite !objTotal_cons. cbn [snd]. lra.
    + rewrite !objTotal_cons, IH. cbn [snd]. lra.
Qed.

Lemma expensesStep_typed acc t :
  entriesTyped acc -> entriesTyped (expensesStep acc t).
Proof.
  intros Hty k v Hin. unfold expensesStep in Hin.
  destruct (ownGet (Transaction.category t) acc) as [[q |] |] eqn:E.
  - apply ownSet_In in Hin. destruct Hin as [Heq | Hin]; [| now apply Hty].
    injection Heq as -> ->. apply ownGet_In in E. exact (Hty _ _ E).
  - apply ownSet_In in Hin. destruct Hin as [Heq | Hin]; [| now apply Hty].
    injection Heq as -> ->. apply ownGet_In in E. exact (Hty _ _ E).
  - destruct (String.eqb (Transaction.category t) "__proto__");
      [now apply Hty |].
    destruct (isPrototypeKey (Transaction.category t)) eqn:Ep;
      apply ownSet_In in Hin; destruct Hin as [Heq | Hin];
      try (now apply Hty); injection Heq as -> ->; exact Ep.
Qed.

Lemma expensesStep_total acc t :
  entriesTyped acc ->
  objTotal (expensesStep acc t)
  == objTotal acc
     + (if isPrototypeKey (Transaction.category t) then 0
        else Transaction.amount t).
Proof.
  intro Hty. unfold expensesStep.
  destruct (ownGet (Transaction.category t) acc) as [[q |] |] eqn:E.
  - rewrite objTotal_ownSet. unfold numberAt. rewrite E.
    apply ownGet_In in E. specialize (Hty _ _ E). simpl in Hty.
    rewrite Hty. simpl. pose proof (orZero_eq q). lra.
  - rewrite objTotal_ownSet. unfold numberAt. rewrite E.
    apply ownGet_In in E. specialize (Hty _ _ E). simpl in Hty.
    rewrite Hty. simpl. lra.
  - destruct (String.eqb (Transaction.category t) "__proto__") eqn:Ek.
    + apply String.eqb_eq in Ek. rewrite Ek. simpl. lra.
    + destruct (isPrototypeKey (Transaction.category t));
        rewrite objTotal_ownSet; unfold numberAt; rewrite E; simpl; lra.
Qed.

Lemma expensesStep_numberAt acc t c :
  entriesTyped acc -> isPrototypeKey c = false ->
  numberAt c (expensesStep acc t)
  == numberAt c acc
     + (if String.eqb (Transaction.category t) c
        then Transaction.amount t else 0).
Proof.
  intros Hty Hc. unfold expensesStep.
  destruct (String.eqb (Transaction.category t) c) eqn:Ec.
  - apply String.eqb_eq in Ec. rewrite Ec.
    rewrite (isPrototypeKey_proto _ Hc), Hc.
    unfold numberAt.
    destruct (ownGet c acc) as [[q |] |] eqn:E.
    + rewrite ownGet_ownSet_same. simpl. pose proof (orZero_eq q). lra.
    + apply ownGet_In in E. specialize (Hty _ _ E). simpl in Hty.
      congruence.
    + rewrite ownGet_ownSet_same. simpl. lra.
  - apply String.eqb_neq in Ec.
    assert (Hother : forall v,
              numberAt c (ownSet (Transaction.category t) v acc)
              = numberAt c acc).
    { intro v. unfold numberAt.
      rewrite ownGet_ownSet_other by congruence. reflexivity. }
    destruct (ownGet (Transaction.category t) acc) as [[q |] |];
      rewrite ?Hother; try lra.
    destruct (String.eqb (Transaction.category t) "__proto__"); [lra |].
    destruct (isPrototypeKey (Transaction.category t));
      rewrite Hother; lra.
Qed.

Lemma expensesStep_keys acc t c :
  ~ In "__proto__"%string (map fst acc) ->
  (In c (map fst (expensesStep acc t))
   <-> In c (map fst acc)
       \/ (c = Transaction.category t /\ c <> "__proto__"%string)).
Proof.
  intro Hno. unfold expensesStep.
  destruct (ownGet (Transaction.category t) acc) as [v |] eqn:E.
  - assert (Hin : In (Transaction.category t) (map fst acc)).
    { apply ownGet_In in E. apply in_map_iff.
      now exists (Transaction.category t, v). }
    assert (Hiff : forall v',
              In c (map fst (ownSet (Transaction.category t) v' acc))
              <-> In c (map fst acc)
                  \/ (c = Transaction.category t
                      /\ c <> "__proto__"%string)).
    { intro v'. rewrite ownSet_keys. split.
      - intros [H | ->]; [now left | now left].
      - intros [H | [-> _]]; [now left | now right]. }
    destruct v; apply Hiff.
  - destruct (String.eqb (Transaction.category t) "__proto__") eqn:Ek.
    + apply String.eqb_eq in Ek. split; [now left |].
      intros [H | [-> H]]; [exact H | congruence].
    + apply String.eqb_neq in Ek.
      destruct (isPrototypeKey (Transaction.category t));
        rewrite ownSet_keys; split;
        try (intros [H | ->]; [now left | right; now split]);
        intros [H | [-> _]]; tauto.
Qed.

Lemma expensesStep_NoDup acc t :
  NoDup (map fst acc) -> NoDup (map fst (expensesStep acc t)).
Proof.
  intro H. unfold expensesStep.
  destruct (ownGet (Transaction.category t) acc) as [[q |] |];
    try (now apply ownSet_NoDup).
  destruct (String.eqb (Transaction.category t) "__proto__"); [exact H |].
  destruct (isPrototypeKey (Transaction.category t));
    now apply ownSet_NoDup.
Qed.

Lemma expenses_fold_typed l acc :
  entriesTyped acc -> entriesTyped (fold_left expensesStep l acc).
Proof.
  revert acc. induction l as [| t l IH]; intros acc H; simpl;
    [exact H |].
  apply IH. now apply expensesStep_typed.
Qed.

Lemma expenses_fold_total l acc :
  entriesTyped acc ->
  objTotal (fold_left expensesStep l acc)
  == objTotal acc
     + sumAmounts
         (filter (fun t => negb (isPrototypeKey (Transaction.category t)))
            l).
Proof.
  revert acc. induction l as [| t l IH]; intros acc H; simpl.
  - unfold sumAmounts. simpl. lra.
  - rewrite IH by now apply expensesStep_typed.
    rewrite expensesStep_total by exact H.
    destruct (isPrototypeKey (Transaction.category t)); simpl;
      rewrite ?sumAmounts_cons; lra.
Qed.

Lemma expenses_fold_numberAt l acc c :
  entriesTyped acc -> isPrototypeKey c = false ->
  numberAt c (fold_left expensesStep l acc)
  == numberAt c acc
     + sumAmounts
         (filter (fun t => String.eqb (Transaction.category t) c) l).
Proof.
  intros Hty Hc. revert acc Hty.
  induction l as [| t l IH]; intros acc Hty; simpl.
  - unfold sumAmounts. simpl. lra.
  - rewrite IH by now apply expensesStep_typed.
    rewrite expensesStep_numberAt by assumption.
    destruct (String.eqb (Transaction.category t) c);
      rewrite ?sumAmounts_cons; lra.
Qed.

Lemma expenses_fold_keys l acc c :
  ~ In "__proto__"%string (map fst acc) ->
  (In c (map fst (fold_left expensesStep l acc))
   <-> In c (map fst acc)
       \/ (c <> "__proto__"%string /\ In c (map Transaction.category l))).
Proof.
  revert acc. induction l as [| t l IH]; intros acc Hno; simpl.
  - tauto.
  - assert (Hno' : ~ In "__proto__"%string (map fst (expensesStep acc t))).
    { rewrite (expensesStep_keys acc t _ Hno). tauto. }
    rewrite (IH _ Hno'), (expensesStep_keys acc t c Hno).
    intuition congruence.
Qed.

Lemma expenses_fold_NoDup l acc :
  NoDup (map fst acc) -> NoDup (map fst (fold_left expensesStep l acc)).
Proof.
  revert acc. induction l as [| t l IH]; intros acc H; simpl;
    [exact H |].
  apply IH. now apply expensesStep_NoDup.
Qed.

Lemma filter_filter_expense c ts :
  filter (fun t => String.eqb (Transaction.category t) c)
    (filter isExpense ts)
  = filter (isExpenseIn c) ts.
Proof.
  induction ts as [| t ts IH]; simpl; [reflexivity |].
  unfold isExpenseIn at 1.
  destruct (isExpense t); simpl; [| exact IH].
  destruct (String.eqb (Transaction.category t) c); now rewrite IH.
Qed.

Lemma filter_both {A : Type} (p q : A -> bool) (l : list A) :
  filter q (filter p l) = filter (fun x => p x && q x) l.
Proof.
  induction l as [| x l IH]; simpl; [reflexivity |].
  destruct (p x); simpl; [| exact IH].
  destruct (q x); now rewrite IH.
Qed.

Lemma entriesTyped_nil : entriesTyped [].
Proof. intros k v []. Qed.

(** [getExpensesByCategory] and the per-category sum that
    [checkRegretRisk] computes.  For a category that is not a property
    name of [Object.prototype]: the object has an own entry for it
    exactly when the store holds an expense of it, and the entry is the
    number that is the sum of the amounts of these expenses.  For a
    category that is such a name the entry, if any, is never a number,
    and there is never an own entry under [__proto__].  No key has two
    entries. *)
Theorem getExpensesByCategory_lookup (s : FinanceState) (c : string) :
  (isPrototypeKey c = false ->
   (forall v,
      ownGet c (getExpensesByCategory s) = Some v ->
      exists q, v = NumberValue q
                /\ q == categoryExpenses c (transactions s))
   /\ (ownGet c (getExpensesByCategory s) = None
       <-> forall t, In t (transactions s) -> isExpenseIn c t = false))
  /\ (isPrototypeKey c = true ->
      forall q, ownGet c (getExpensesByCategory s) <> Some (NumberValue q))
  /\ ownGet "__proto__" (getExpensesByCategory s) = None
  /\ NoDup (map fst (getExpensesByCategory s)).
Proof.
  unfold getExpensesByCategory.
  pose proof (expenses_fold_typed (filter isExpense (transactions s)) []
                entriesTyped_nil) as Hty.
  assert (Hno : ~ In "__proto__"%string
                  (map fst (@nil (string * objValue)))) by (simpl; tauto).
  split; [| split; [| split]].
  - intro Hc. split.
    + intros v Hv.
      pose proof (expenses_fold_numberAt
                    (filter isExpense (transactions s)) [] c
                    entriesTyped_nil Hc) as H.
      unfold numberAt in H at 1. rewrite Hv in H.
      apply ownGet_In in Hv. specialize (Hty _ _ Hv).
      destruct v as [q |]; [| simpl in Hty; congruence].
      exists q. split; [reflexivity |].
      rewrite filter_filter_expense in H. unfold categoryExpenses.
      unfold numberAt in H. simpl in H. lra.
    + rewrite ownGet_none_keys, (expenses_fold_keys _ _ c Hno). simpl.
      split.
      * intros Hnone t Ht.
        destruct (isExpenseIn c t) eqn:E; [| reflexivity].
        exfalso. apply Hnone. right.
        unfold isExpenseIn in E. apply andb_true_iff in E.
        destruct E as [He Hcat]. apply String.eqb_eq in Hcat.
        split.
        -- intro Heq. rewrite Heq in Hc. discriminate Hc.
        -- apply in_map_iff. exists t. split; [exact Hcat |].
           apply filter_In. now split.
      * intros Hall [[] | [_ Hin]].
        apply in_map_iff in Hin. destruct Hin as [t [Hcat Ht]].
        apply filter_In in Ht. destruct Ht as [Ht He].
        specialize (Hall t Ht). unfold isExpenseIn in Hall.
        rewrite He, Hcat, String.eqb_refl in Hall. discriminate Hall.
  - intros Hc q Hq. apply ownGet_In in Hq. specialize (Hty _ _ Hq).
    simpl in Hty. congruence.
  - apply ownGet_none_keys. rewrite (expenses_fold_keys _ _ _ Hno).
    simpl. tauto.
  - apply expenses_fold_NoDup. constructor.
Qed.

Lemma getExpensesByCategory_lookup_witness :
  exists v q,
    ownGet "Food" (getExpensesByCategory
                     (addTransaction 1700000000000 lunch initialState))
    = Some v
    /\ v = NumberValue q
    /\ q == categoryExpenses "Food"
              (transactions
                 (addTransaction 1700000000000 lunch initialState)).
Proof.
  destruct (getExpensesByCategory_lookup
              (addTransaction 1700000000000 lunch initialState) "Food")
    as [Hfood _].
  destruct (Hfood eq_refl) as [Hval _].
  destruct (Hval _ eq_refl) as [q [Hv Hq]].
  eexists. exists q. split; [reflexivity |]. split; [exact Hv | exact Hq].
Defined.

(** The numbers among the values of [getExpensesByCategory] add up to
    the stored expenses whose category is not a property name of
    [Object.prototype].  When no stored expense has such a category,
    every value is a number and the values add up to the total of the
    expenses that the dashboard computes with
    [transactions.filter(expense).reduce(sum)]. *)
Theorem getExpensesByCategory_total (s : FinanceState) :
  objTotal (getExpensesByCategory s)
  == sumAmounts
       (filter (fun t => isExpense t
                         && negb (isPrototypeKey (Transaction.category t)))
          (transactions s))
  /\ ((forall t, In t (transactions s) -> isExpense t = true ->
                 isPrototypeKey (Transaction.category t) = false) ->
      (forall k v, In (k, v) (getExpensesByCategory s) ->
                   exists q, v = NumberValue q)
      /\ objTotal (getExpensesByCategory s)
         == sumAmounts (filter isExpense (transactions s))).
Proof.
  assert (Htot : objTotal (getExpensesByCategory s)
                 == sumAmounts
                      (filter (fun t =>
                                 isExpense t
                                 && negb (isPrototypeKey
                                            (Transaction.category t)))
                         (transactions s))).
  { unfold getExpensesByCategory.
    rewrite expenses_fold_total by exact entriesTyped_nil.
    rewrite filter_both. unfold objTotal. simpl. lra. }
  split; [exact Htot |].
  intro Hall. split.
  - intros k v Hin.
    pose proof (expenses_fold_typed (filter isExpense (transactions s)) []
                  entriesTyped_nil k v Hin) as Hty.
    destruct v as [q |]; [now exists q |]. exfalso.
    assert (Hk : In k (map fst (getExpensesByCategory s))).
    { apply in_map_iff. now exists (k, StringValue). }
    unfold getExpensesByCategory in Hk.
    rewrite expenses_fold_keys in Hk by (simpl; tauto).
    destruct Hk as [[] | [_ Hk]].
    apply in_map_iff in Hk. destruct Hk as [t [Hcat Ht]].
    apply filter_In in Ht. destruct Ht as [Ht He].
    specialize (Hall t Ht He). simpl in Hty. congruence.
  - rewrite Htot.
    assert (Hf : filter (fun t =>
                           isExpense t
                           && negb (isPrototypeKey
                                      (Transaction.category t)))
                   (transactions s)
                 = filter isExpense (transactions s)).
    { apply filter_ext_in. intros t Ht.
      destruct (isExpense t) eqn:E; [| reflexivity].
      now rewrite (Hall t Ht E). }
    now rewrite Hf.
Qed.

Lemma getExpensesByCategory_total_witness :
  objTotal (getExpensesByCategory initialState)
  == sumAmounts (filter isExpense (transactions initialState)).
Proof.
  apply (getExpensesByCategory_total initialState).
  intros t [<- | [<- | [<- | []]]] H; try reflexivity; discriminate H.
Defined.

(** Two categories that name properties of [Object.prototype]: an
    expense booked on [__proto__] leaves no entry and is missing from the
    sum of the values, an expense booked on [toString] leaves a string. *)
Example getExpensesByCategory_prototype_keys :
  let s1 := addTransaction 1700000000000 protoExpense initialState in
  let s2 := addTransaction 1700000000000 toStringExpense initialState in
  ownGet "__proto__" (getExpensesByCategory s1) = None
  /\ objTotal (getExpensesByCategory s1) == 3300
  /\ sumAmounts (filter isExpense (transactions s1)) == 3305
  /\ ownGet "toString" (getExpensesByCategory s2) = Some StringValue.
Proof.
  cbv zeta. repeat split; reflexivity.
Qed.

(** ** More on [checkRegretRisk] *)

Lemma jsnum_gtb_min x :
  jsnum_gtb (jsnum_min x 1) 0.8 = jsnum_gtb x 0.8.
Proof.
  destruct x as [q | | |]; simpl; try reflexivity.
  unfold Math_min. destruct (Qle_bool q 1) eqn:E; [reflexivity |].
  symmetry. apply Qgtb_true.
  destruct (Qlt_le_dec 1 q) as [H | H].
  - lra.
  - apply Qle_bool_iff in H. congruence.
Qed.

(** The message goes with the risk that is returned: for a draw in
    [[0, 1)] the message is defined; it is one of the four cautions when
    the returned risk is above 0.8 and the fifth message, the approval,
    when it is not. *)
Theorem regret_message_matches_risk
    (random amount : Q) (category : string) (s : FinanceState) :
  0 <= random -> random < 1 ->
  let r := checkRegretRisk random amount category s in
  exists m,
    Regret.message r = Some m
    /\ (jsnum_gtb (Regret.risk r) 0.8 = true -> In m (firstn 4 messages))
    /\ (jsnum_gtb (Regret.risk r) 0.8 = false ->
        m = "Great choice! This fits well within your budget."%string).
Proof.
  intros H0 H1. cbv zeta. unfold checkRegretRisk.
  cbn [Regret.message Regret.risk]. rewrite jsnum_gtb_min.
  destruct (jsnum_gtb _ 0.8).
  - pose proof (randomIndex_range random 4 eq_refl H0 H1) as Hr.
    assert (Hi : randomIndex random 4 = 0%Z \/ randomIndex random 4 = 1%Z
                 \/ randomIndex random 4 = 2%Z
                 \/ randomIndex random 4 = 3%Z) by lia.
    destruct Hi as [-> | [-> | [-> | ->]]]; eexists;
      (split; [reflexivity |]); (split; [| discriminate]); intros _;
      simpl; tauto.
  - eexists. split; [reflexivity |]. split; [discriminate | reflexivity].
Qed.

Lemma regret_message_matches_risk_witness :
  exists m,
    Regret.message (checkRegretRisk 0.7 100 "Food" initialState) = Some m
    /\ (jsnum_gtb
          (Regret.risk (checkRegretRisk 0.7 100 "Food" initialState)) 0.8
        = true -> In m (firstn 4 messages))
    /\ (jsnum_gtb
          (Regret.risk (checkRegretRisk 0.7 100 "Food" initialState)) 0.8
        = false ->
        m = "Great choice! This fits well within your budget."%string).
Proof.
  apply (regret_message_matches_risk 0.7 100 "Food" initialState);
    [discriminate | reflexivity].
Defined.

Lemma findBudget_same_limits c bs bs' :
  Forall2 (fun b b' => Budget.category b' = Budget.category b
                       /\ Budget.limit b' = Budget.limit b) bs bs' ->
  option_map Budget.limit (findBudget c bs')
  = option_map Budget.limit (findBudget c bs).
Proof.
  unfold findBudget. induction 1 as [| b b' bs bs' [Hc Hl] _ IH]; simpl;
    [reflexivity |].
  rewrite Hc. destruct (String.eqb (Budget.category b) c); simpl;
    [now rewrite Hl | exact IH].
Qed.

(** [checkRegretRisk] reads the stored transactions and the limit of the
    budget, never [spent]: two states with the same store and budgets
    that agree on categories and limits give the same risk and message. *)
Theorem regret_risk_ignores_spent
    (random amount : Q) (category : string) (s s' : FinanceState) :
  transactions s' = transactions s ->
  Forall2 (fun b b' => Budget.category b' = Budget.category b
                       /\ Budget.limit b' = Budget.limit b)
    (budgets s) (budgets s') ->
  checkRegretRisk random amount category s'
  = checkRegretRisk random amount category s.
Proof.
  intros Ht Hb. unfold checkRegretRisk. rewrite Ht.
  pose proof (findBudget_same_limits category _ _ Hb) as H.
  destruct (findBudget category (budgets s')) as [b' |],
           (findBudget category (budgets s)) as [b |];
    simpl in H; try discriminate H; [| reflexivity].
  injection H as ->. reflexivity.
Qed.

Lemma regret_risk_ignores_spent_witness :
  checkRegretRisk 0.3 2600 "Food" spentCleared
  = checkRegretRisk 0.3 2600 "Food" initialState.
Proof.
  apply (regret_risk_ignores_spent 0.3 2600 "Food" initialState spentCleared).
  - reflexivity.
  - simpl. repeat constructor.
Defined.

Lemma Math_min_monotone x y c : x <= y -> Math_min x c <= Math_min y c.
Proof.
  intro H. unfold Math_min.
  destruct (Qle_bool x c) eqn:Ex; destruct (Qle_bool y c) eqn:Ey;
    try lra.
  - now apply Qle_bool_iff in Ex.
  - apply Qle_bool_iff in Ey.
    assert (Hx : x <= c) by lra. apply Qle_bool_iff in Hx. congruence.
Qed.

Lemma Qdiv_monotone n n' d : 0 < d -> n <= n' -> n / d <= n' / d.
Proof.
  intros Hd Hn. unfold Qdiv. apply Qmult_le_compat_r; [exact Hn |].
  apply Qlt_le_weak. now apply Qinv_lt_0_compat.
Qed.

(** For a category whose budget has a positive limit, the risk is a
    number and grows with the amount: a larger amount never gets a smaller
    risk. *)
Theorem regret_risk_monotone
    (random random' amount amount' : Q) (category : string)
    (s : FinanceState) (b : Budget.t) :
  findBudget category (budgets s) = Some b ->
  0 < Budget.limit b ->
  amount <= amount' ->
  exists q q',
    Regret.risk (checkRegretRisk random amount category s) = Num q
    /\ Regret.risk (checkRegretRisk random' amount' category s) = Num q'
    /\ q <= q'.
Proof.
  intros Hb Hl Ha. unfold checkRegretRisk. cbn [Regret.risk]. rewrite Hb.
  rewrite !jsdiv_nonzero by lra. simpl.
  eexists. eexists. split; [reflexivity |]. split; [reflexivity |].
  apply Math_min_monotone. apply Qdiv_monotone; [exact Hl | lra].
Qed.

Lemma regret_risk_monotone_witness :
  exists q q',
    Regret.risk (checkRegretRisk 0.1 100 "Food" initialState) = Num q
    /\ Regret.risk (checkRegretRisk 0.9 2600 "Food" initialState) = Num q'
    /\ q <= q'.
Proof.
  apply (regret_risk_monotone 0.1 0.9 100 2600 "Food" initialState
           (Budget.mk "Food" 5000 2500)).
  - reflexivity.
  - reflexivity.
  - discriminate.
Defined.

(** ** More on the round-up accumulator *)

Lemma roundUp_whole_amount now t s (n : Z) :
  TransactionInput.amount t == inject_Z n ->
  roundUpSavings (addTransaction now t s) = roundUpSavings s.
Proof.
  intro Hn. unfold addTransaction. cbn [roundUpSavings].
  destruct (TransactionInput.type t); [reflexivity |].
  destruct (Qgtb _ 0) eqn:E; [| reflexivity].
  apply Qgtb_true in E. unfold Math_ceil in E.
  rewrite (Qceiling_comp _ _ Hn), Qceiling_Z in E. lra.
Qed.

(** One addition raises the round-up accumulator by less than 1, and an
    addition with a whole amount leaves it as it is. *)
Theorem roundUp_small_steps
    (now : Z) (t : TransactionInput.t) (s : FinanceState) :
  roundUpSavings (addTransaction now t s) < roundUpSavings s + 1
  /\ (forall n : Z,
        TransactionInput.amount t == inject_Z n ->
        roundUpSavings (addTransaction now t s) = roundUpSavings s).
Proof.
  split.
  - rewrite addTransaction_roundUp.
    destruct (TransactionInput.type t); [lra |].
    pose proof (Qceiling_lt (TransactionInput.amount t)) as H.
    unfold Math_ceil.
    unfold Z.sub in H. rewrite inject_Z_plus in H.
    assert (He : inject_Z (- (1)) == -1) by reflexivity.
    rewrite He in H. lra.
  - intros n Hn. now apply roundUp_whole_amount with n.
Qed.

Lemma roundUp_small_steps_witness :
  roundUpSavings (addTransaction 1700000000000 dinner initialState)
  = roundUpSavings initialState.
Proof.
  apply (roundUp_small_steps 1700000000000 dinner initialState) with 2500%Z.
  reflexivity.
Defined.

(** ** The dashboard's budget bars *)

Lemma percentage_positive_limit b :
  0 < Budget.limit b ->
  percentage b = Num (Budget.spent b / Budget.limit b * 100)
  /\ Budget.spent b == Budget.spent b / Budget.limit b * Budget.limit b.
Proof.
  intro Hl. split.
  - unfold percentage. now rewrite jsdiv_nonzero by lra.
  - rewrite Qmult_comm, Qmult_div_r; [reflexivity | lra].
Qed.

(** For a budget with a positive limit: the bar is flagged over budget
    exactly when [spent] exceeds the limit, and then the excess shown is
    positive; it is amber exactly when [spent] is above 80% of the limit
    without exceeding it; and when [spent] is not negative the width of
    the bar is a number between 0 and 100. *)
Theorem budget_bar (b : Budget.t) :
  0 < Budget.limit b ->
  (isOverBudget b = true <-> Budget.limit b < Budget.spent b)
  /\ (isOverBudget b = true -> 0 < Budget.spent b - Budget.limit b)
  /\ (barColor b = red <-> Budget.limit b < Budget.spent b)
  /\ (barColor b = amber
      <-> 0.8 * Budget.limit b < Budget.spent b
          /\ Budget.spent b <= Budget.limit b)
  /\ (0 <= Budget.spent b ->
      exists w, barWidth b = Num w /\ 0 <= w /\ w <= 100).
Proof.
  intro Hl.
  destruct (percentage_positive_limit b Hl) as [Hp Hs].
  set (q := Budget.spent b / Budget.limit b) in *.
  assert (Hover : isOverBudget b = true <-> Budget.limit b < Budget.spent b).
  { unfold isOverBudget. rewrite Hp. simpl. rewrite Qgtb_true.
    split; intro H; nra. }
  assert (H80 : jsnum_gtb (percentage b) 80 = true
                <-> 0.8 * Budget.limit b < Budget.spent b).
  { rewrite Hp. simpl. rewrite Qgtb_true. split; intro H; nra. }
  split; [exact Hover |]. split; [| split; [| split]].
  - intro H. apply Hover in H. lra.
  - unfold barColor. destruct (isOverBudget b) eqn:E.
    + split; [intros _; now apply Hover | reflexivity].
    + split.
      * destruct (jsnum_gtb (percentage b) 80); discriminate.
      * intro H. apply Hover in H. discriminate H.
  - unfold barColor. destruct (isOverBudget b) eqn:E.
    + split; [discriminate |]. intros [_ H].
      assert (Hlt : Budget.limit b < Budget.spent b) by now apply Hover.
      lra.
    + assert (Hle : Budget.spent b <= Budget.limit b).
      { destruct (Qlt_le_dec (Budget.limit b) (Budget.spent b)) as [H | H];
          [| exact H].
        apply Hover in H. discriminate H. }
      destruct (jsnum_gtb (percentage b) 80) eqn:E80.
      * split; [intros _ | reflexivity].
        split; [now apply H80 | exact Hle].
      * split; [discriminate |]. intros [H _].
        apply H80 in H. discriminate H.
  - intro Hnn. unfold barWidth. rewrite Hp. simpl.
    eexists. split; [reflexivity |]. split.
    + apply Math_min_glb; [| lra]. nra.
    + apply Math_min_le_r.
Qed.

Lemma budget_bar_witness :
  barColor (Budget.mk "Shopping" 4000 4500) = red.
Proof.
  apply (budget_bar (Budget.mk "Shopping" 4000 4500)); reflexivity.
Defined.

(** * The voice entry *)

(** ** Reading the amount *)

Lemma takeDigits_idempotent s : takeDigits (takeDigits s) = takeDigits s.
Proof.
  induction s as [| c s IH]; simpl; [reflexivity |].
  destruct (isDigit c) eqn:E; simpl; [| reflexivity].
  now rewrite E, IH.
Qed.

Lemma matchAmount_digits text digits :
  matchAmount text = Some digits ->
  takeDigits digits = digits /\ digits <> EmptyString.
Proof.
  induction text as [| c text IH]; [discriminate |].
  cbn [matchAmount].
  destruct (stripPrefix rupee (String c text)) as [tail |]; [| exact IH].
  destruct (takeDigits tail) as [| d ds] eqn:E; [exact IH |].
  intro H. injection H as <-. split; [| discriminate].
  rewrite <- E. apply takeDigits_idempotent.
Qed.

Lemma isDigit_value c :
  isDigit c = true ->
  (0 <= Z.of_nat (Ascii.nat_of_ascii c) - 48 <= 9)%Z.
Proof.
  unfold isDigit. rewrite andb_true_iff, !Nat.leb_le. lia.
Qed.

Lemma parseDigits_nonneg digits acc :
  takeDigits digits = digits -> (0 <= acc)%Z ->
  (0 <= parseDigits acc digits)%Z.
Proof.
  revert acc. induction digits as [| c ds IH]; intros acc Hd Hacc;
    cbn [parseDigits]; [exact Hacc |].
  simpl in Hd. destruct (isDigit c) eqn:E; [| discriminate Hd].
  injection Hd as Hd. apply IH; [exact Hd |].
  pose proof (isDigit_value c E). lia.
Qed.

Lemma parseTranscript_amount toLowerCase now text :
  exists n : Z,
    (0 <= n)%Z
    /\ TransactionInput.amount (parseTranscript toLowerCase now text)
       = inject_Z n
    /\ (matchAmount text = None -> n = 0%Z).
Proof.
  unfold parseTranscript. cbn [TransactionInput.amount].
  destruct (matchAmount text) as [digits |] eqn:E.
  - exists (parseInt digits). split; [| split; [reflexivity | discriminate]].
    apply matchAmount_digits in E. destruct E as [Hd _].
    unfold parseInt. apply parseDigits_nonneg; [exact Hd | lia].
  - exists 0%Z. split; [lia |]. split; reflexivity.
Qed.

(** The amount [parseTranscript] reads is a whole number that is not
    negative, and it is 0 when the transcript has no rupee sign followed
    by a digit. *)
Theorem voice_amount_whole
    (toLowerCase : string -> string) (now : Z) (text : string) :
  exists n : Z,
    (0 <= n)%Z
    /\ TransactionInput.amount (parseTranscript toLowerCase now text)
       = inject_Z n
    /\ (matchAmount text = None -> n = 0%Z).
Proof.
  apply parseTranscript_amount.
Qed.

(** Evaluates the code of a character that is written out. *)
Ltac digit_value :=
  repeat match goal with
         | |- context [Z.of_nat (Ascii.nat_of_ascii ?c)] =>
             let v := eval vm_compute in (Z.of_nat (Ascii.nat_of_ascii c)) in
             change (Z.of_nat (Ascii.nat_of_ascii c)) with v
         end.

Lemma parseDigits_acc d acc :
  parseDigits (Zpos acc) (NilEmpty.string_of_uint d)
  = Zpos (Pos.of_uint_acc d acc).
Proof.
  revert acc. induction d; intro acc;
    cbn [NilEmpty.string_of_uint parseDigits Pos.of_uint_acc];
    try reflexivity;
    rewrite <- IHd; f_equal; digit_value; lia.
Qed.

Lemma parseDigits_uint d :
  parseDigits 0 (NilEmpty.string_of_uint d) = Z.of_N (Pos.of_uint d).
Proof.
  induction d;
    cbn [NilEmpty.string_of_uint parseDigits Pos.of_uint];
    try reflexivity; digit_value;
    try (rewrite <- IHd; f_equal; lia);
    cbn [Z.of_N]; rewrite <- parseDigits_acc; f_equal.
Qed.

Lemma string_append_empty s : (s ++ EmptyString)%string = s.
Proof.
  induction s as [| c s IH]; simpl; [reflexivity | now rewrite IH].
Qed.

Lemma takeDigits_uint d rest :
  takeDigits (NilEmpty.string_of_uint d ++ rest)
  = (NilEmpty.string_of_uint d ++ takeDigits rest)%string.
Proof.
  induction d; simpl; try reflexivity; now rewrite IHd.
Qed.

Lemma string_of_uint_nonnil d :
  d <> Decimal.Nil ->
  NilZero.string_of_uint d = NilEmpty.string_of_uint d
  /\ NilEmpty.string_of_uint d <> EmptyString.
Proof.
  destruct d; intro H; try contradiction; split;
    try reflexivity; discriminate.
Qed.

Lemma parseInt_toString n : (0 <= n)%Z -> parseInt (toString n) = n.
Proof.
  intro Hn. unfold parseInt, toString.
  destruct n as [| p | p]; [reflexivity | | lia].
  cbn [Z.to_int NilZero.string_of_int].
  destruct (string_of_uint_nonnil (Pos.to_uint p)
              (DecimalPos.Unsigned.to_uint_nonnil p)) as [-> _].
  now rewrite parseDigits_uint, DecimalPos.Unsigned.of_to.
Qed.

Lemma takeDigits_toString n rest :
  (0 <= n)%Z -> takeDigits rest = EmptyString ->
  takeDigits (toString n ++ rest) = toString n
  /\ toString n <> EmptyString.
Proof.
  intros Hn Hrest. unfold toString.
  destruct n as [| p | p]; [| | lia].
  - simpl. rewrite Hrest. split; [reflexivity | discriminate].
  - cbn [Z.to_int NilZero.string_of_int].
    destruct (string_of_uint_nonnil (Pos.to_uint p)
                (DecimalPos.Unsigned.to_uint_nonnil p)) as [-> Hne].
    rewrite takeDigits_uint, Hrest, string_append_empty.
    split; [reflexivity | exact Hne].
Qed.

Lemma stripPrefix_prefix p s t :
  stripPrefix p s = Some t -> String.prefix p s = true.
Proof.
  revert s. induction p as [| a p IH]; intros s H;
    [now destruct s |].
  destruct s as [| b s]; [discriminate H |]. simpl in H |- *.
  destruct (Ascii.eqb a b) eqn:E; [| discriminate H].
  apply Ascii.eqb_eq in E. subst b.
  destruct (Ascii.ascii_dec a a) as [_ | Hne]; [| contradiction].
  now apply IH.
Qed.

(** A rupee sign found before the end of [pre] lies within [pre]: its
    first byte differs from its second and third. *)
Lemma rupee_within pre tail x :
  pre <> EmptyString ->
  stripPrefix rupee (pre ++ rupee ++ tail) = Some x ->
  String.prefix rupee pre = true.
Proof.
  intros Hne H.
  destruct pre as [| a [| b [| c pre]]]; [contradiction | | |].
  - unfold rupee in H. cbn [stripPrefix append] in H.
    destruct (Ascii.eqb _ a); [| discriminate H].
    simpl in H. discriminate H.
  - unfold rupee in H. cbn [stripPrefix append] in H.
    destruct (Ascii.eqb _ a); [| discriminate H].
    destruct (Ascii.eqb _ b); [| discriminate H].
    simpl in H. discriminate H.
  - apply stripPrefix_prefix with (t := pre).
    unfold rupee in H |- *. cbn [stripPrefix append] in H |- *.
    destruct (Ascii.eqb _ a); [| discriminate H].
    destruct (Ascii.eqb _ b); [| discriminate H].
    destruct (Ascii.eqb _ c); [reflexivity | discriminate H].
Qed.

Lemma matchAmount_skips pre tail :
  includes pre rupee = false ->
  matchAmount (pre ++ rupee ++ tail) = matchAmount (rupee ++ tail).
Proof.
  induction pre as [| c pre IH]; intro H; [reflexivity |].
  cbn [includes] in H. apply orb_false_iff in H. destruct H as [Hp Hi].
  change ((String c pre ++ rupee ++ tail)%string)
    with (String c (pre ++ rupee ++ tail)%string).
  cbn [matchAmount].
  destruct (stripPrefix rupee (String c (pre ++ rupee ++ tail)))
    as [x |] eqn:E.
  - apply (rupee_within (String c pre) tail x) in E; [| discriminate].
    congruence.
  - now apply IH.
Qed.

(** A transcript that names an amount: when the first rupee sign is
    followed by the decimal digits of [n] and then by something that is
    not a digit, the amount read is [n].  ([n] is at most 2^53, the range
    in which [parseInt] returns every whole number exactly.) *)
Theorem voice_amount_read
    (toLowerCase : string -> string) (now n : Z) (pre rest : string) :
  (0 <= n)%Z ->
  (n <= 9007199254740992)%Z ->
  includes pre rupee = false ->
  takeDigits rest = EmptyString ->
  TransactionInput.amount
    (parseTranscript toLowerCase now (pre ++ rupee ++ toString n ++ rest))
  = inject_Z n.
Proof.
  intros Hn _ Hpre Hrest. unfold parseTranscript.
  cbn [TransactionInput.amount].
  rewrite matchAmount_skips by exact Hpre.
  destruct (takeDigits_toString n rest Hn Hrest) as [Htake Hne].
  assert (Hm : matchAmount (rupee ++ toString n ++ rest)
               = Some (toString n)).
  { change (matchAmount (rupee ++ toString n ++ rest))
      with (match takeDigits (toString n ++ rest) with
            | EmptyString =>
                matchAmount
                  (String (Ascii.ascii_of_nat 130)
                     (String (Ascii.ascii_of_nat 185)
                        (toString n ++ rest)))
            | digits => Some digits
            end).
    rewrite Htake. destruct (toString n); [contradiction | reflexivity]. }
  rewrite Hm. now rewrite parseInt_toString.
Qed.

Lemma voice_amount_read_witness :
  TransactionInput.amount
    (parseTranscript (fun s => s) 1700000000000
       ("I spent " ++ rupee ++ toString 250 ++ " on lunch"))
  = inject_Z 250.
Proof.
  apply (voice_amount_read (fun s => s) 1700000000000 250
           "I spent " " on lunch").
  - lia.
  - lia.
  - reflexivity.
  - reflexivity.
Defined.

(** ** Classifying the transcript *)

(** The record [parseTranscript] builds keeps the transcript as its
    description; it is an income exactly when the lowercased transcript
    contains "income" or "earn", which is also exactly when its category
    is [Salary]; and its category is one of six fixed labels. *)
Theorem voice_classification
    (toLowerCase : string -> string) (now : Z) (text : string) :
  let p := parseTranscript toLowerCase now text in
  TransactionInput.description p = text
  /\ (TransactionInput.type p = income
      <-> includes (toLowerCase text) "income"
          || includes (toLowerCase text) "earn" = true)
  /\ (TransactionInput.type p = income
      <-> TransactionInput.category p = "Salary"%string)
  /\ In (TransactionInput.category p)
       ["Salary"; "Food"; "Transportation"; "Shopping"; "Savings";
        "Other"]%string.
Proof.
  cbv zeta. unfold parseTranscript.
  cbn [TransactionInput.description TransactionInput.type
       TransactionInput.category].
  split; [reflexivity |].
  destruct (includes (toLowerCase text) "income"
            || includes (toLowerCase text) "earn").
  - cbn [fst snd]. repeat split; auto. simpl. tauto.
  - destruct (includes (toLowerCase text) "food"
              || includes (toLowerCase text) "lunch");
      [| destruct (includes (toLowerCase text) "transport"
                   || includes (toLowerCase text) "uber");
         [| destruct (includes (toLowerCase text) "shopping"
                      || includes (toLowerCase text) "clothes");
            [| destruct (includes (toLowerCase text) "saving")]]];
      cbn [fst snd]; (split; [split; discriminate |]);
      (split; [split; discriminate | simpl; tauto]).
Qed.

(** ** From the transcript to the engine *)

(** Confirming a parsed transcript, whatever was said: the record is put
    in front of the store, budgets that had a non-negative [spent] keep a
    non-negative [spent], and the round-up accumulator does not move,
    since the amount is whole. *)
Theorem voice_confirm_effects
    (toLowerCase : string -> string) (now now' : Z) (text : string)
    (s : FinanceState) :
  let parsed := parseTranscript toLowerCase now text in
  let s' := confirmTransaction (Some parsed) now' s in
  transactions s' = withId (toString now') parsed :: transactions s
  /\ roundUpSavings s' = roundUpSavings s
  /\ (budgetsNonNegative s -> budgetsNonNegative s').
Proof.
  cbv zeta. cbn [confirmTransaction].
  destruct (parseTranscript_amount toLowerCase now text) as [n [Hn [Ha _]]].
  split; [reflexivity |]. split.
  - apply roundUp_whole_amount with n. now rewrite Ha.
  - intro Hs.
    apply (call_budgets_nonneg
             (CallAdd now' (parseTranscript toLowerCase now text)) s);
      [| exact Hs].
    cbn [amountNonNegative]. rewrite Ha. change 0 with (inject_Z 0).
    now rewrite <- Zle_Qle.
Qed.

Lemma voice_confirm_effects_witness :
  budgetsNonNegative
    (confirmTransaction
       (Some (parseTranscript (fun s => s) 1700000000000
                "uber to the office"))
       1700000001500 initialState).
Proof.
  apply (voice_confirm_effects (fun s => s) 1700000000000 1700000001500
           "uber to the office" initialState).
  exact initialState_budgets_nonneg.
Defined.

(** * The session *)

Lemma authCall_coherent stringify c st :
  sessionCoherent stringify (authCall stringify c st).
Proof.
  destruct c; split; reflexivity.
Qed.

Lemma authRun_snoc stringify cs c st :
  authRun stringify (cs ++ [c]) st
  = authCall stringify c (authRun stringify cs st).
Proof.
  unfold authRun. now rewrite fold_left_app.
Qed.

(** Whatever sign-ins, registrations and sign-outs have completed, in
    whatever order, the three cells of the session agree: the provider
    reports [isAuthenticated] exactly when a user is set, and the stored
    item is the serialised user (absent when no user is set).  A sequence
    that ends with [logout] ends signed out with the stored item removed,
    whatever the state it started in. *)
Theorem session_coherent
    (stringify : User.t -> string) (cs : list AuthCall) :
  sessionCoherent stringify (authRun stringify cs signedOut)
  /\ (forall st, cs <> [] ->
        sessionCoherent stringify (authRun stringify cs st))
  /\ (forall st, authRun stringify (cs ++ [AuthLogout]) st = signedOut).
Proof.
  assert (Hany : forall st, cs <> [] ->
            sessionCoherent stringify (authRun stringify cs st)).
  { intros st Hne.
    destruct (exists_last Hne) as [cs' [c ->]].
    rewrite authRun_snoc. apply authCall_coherent. }
  split; [| split; [exact Hany |]].
  - destruct cs as [| c cs']; [split; reflexivity |].
    apply Hany. discriminate.
  - intro st. now rewrite authRun_snoc.
Qed.

Lemma session_coherent_witness :
  sessionCoherent (fun u => User.email u)
    (authRun (fun u => User.email u)
       [AuthLogin "a@b.c" "secret"; AuthLogout;
        AuthSocialLogin 1700000000000 "github"]
       {| user := None; isAuthenticated := true; storage := Some "stale"%string |}).
Proof.
  apply (session_coherent (fun u => User.email u)
           [AuthLogin "a@b.c" "secret"; AuthLogout;
            AuthSocialLogin 1700000000000 "github"]).
  discriminate.
Defined.
